(** * llama_weight_convert: name map and archive encoder

    A shallow embedding of [samples/python/llama_weight_convert.py]: the
    function [reformat_quantized] builds the list [paramlist] of
    (source key, archive name, castable, optional) tuples for a LLaMa
    checkpoint with [num_layers] decoder layers and then copies every listed
    tensor of the parameter dictionary into an uncompressed zip archive.

    The parameter dictionary is a [gmap string Tensor]; the zip file is a
    record that keeps the entries in write order together with the flag that
    says whether it was closed; [print] appends a line to [stdout]. *)

From Stdlib Require Import ZArith List Ascii String DecimalString DecimalZ.
From Stdlib.Strings Require Import Byte.
From stdpp Require Import gmap strings list fin_maps.

Local Open Scope Z_scope.

(** * The program *)

(** ** Strings and formatting *)

(** ['%d' % z] for a Python int. *)
Definition fmt_d (z : Z) : string := NilEmpty.string_of_int (Z.to_int z).

(** [range(n)] for a Python int [n]: empty when [n <= 0]. *)
Definition range (n : Z) : list Z := map Z.of_nat (seq 0 (Z.to_nat n)).

(** ** The part of torch that the script uses *)

Inductive dtype : Set :=
  | float32 | float64 | float16 | bfloat16
  | uint8 | int8 | int16 | int32 | int64 | bool_.

Global Instance dtype_eq_dec : EqDecision dtype.
Proof. solve_decision. Defined.

(** Bytes per element ([Tensor.element_size()]). *)
Definition itemsize (d : dtype) : nat :=
  match d with
  | float32 | int32 => 4
  | float64 | int64 => 8
  | float16 | bfloat16 | int16 => 2
  | uint8 | int8 | bool_ => 1
  end%nat.

(** A tensor: its element type and its elements in storage order, each as the
    integer whose low [8 * itemsize] bits are the element's bit pattern.  The
    script never looks at the shape. *)
Record Tensor : Type := mkTensor { t_dtype : dtype; t_data : list Z }.

Definition numel (t : Tensor) : nat := length (t_data t).

Definition byte_of_Z (z : Z) : byte :=
  match Byte.of_N (Z.to_N (z mod 256)) with
  | Some b => b
  | None => x00
  end.

(** The [n] low bytes of [z], least significant first. *)
Definition le_bytes (n : nat) (z : Z) : list byte :=
  map (fun i : nat => byte_of_Z (Z.shiftr z (8 * Z.of_nat i))) (seq 0 n).

(** [tensor.numpy().tobytes()]: the elements one after the other, no header. *)
Definition tobytes (t : Tensor) : list byte :=
  flat_map (le_bytes (itemsize (t_dtype t))) (t_data t).

(** ** zipfile and the console *)

Record ZipFile : Type := mkZip {
  z_filename : string;
  z_filelist : list (string * list byte);
  z_closed : bool
}.

(** [zipfile.ZipFile(output_file, 'w', compression=ZIP_STORED)] *)
Definition ZipFile_open (output_file : string) : ZipFile :=
  {| z_filename := output_file; z_filelist := []; z_closed := false |}.

Definition writestr (name : string) (data : list byte) (z : ZipFile) : ZipFile :=
  {| z_filename := z_filename z;
     z_filelist := z_filelist z ++ [(name, data)];
     z_closed := z_closed z |}.

(** [ZipFile.close()], which [__exit__] calls when the [with] block is left. *)
Definition ZipFile_close (z : ZipFile) : ZipFile :=
  {| z_filename := z_filename z; z_filelist := z_filelist z; z_closed := true |}.

Record world : Type := mkWorld { stdout : list string; outfile : ZipFile }.

Definition print (line : string) (w : world) : world :=
  {| stdout := stdout w ++ [line]; outfile := outfile w |}.

Definition write (name : string) (data : list byte) (w : world) : world :=
  {| stdout := stdout w; outfile := writestr name data (outfile w) |}.

(** What a Python call hands back: [None] when the body runs off its end. *)
Inductive retval : Set := RNone | RBool (b : bool).

(** How one turn of a [for] body ends: with the next turn, or with [return]. *)
Inductive flow : Type :=
  | Continue (w : world)
  | Return (v : retval) (w : world).

(** ** The name map *)

(** One tuple of [paramlist]: [(param, oparam, castable, optional)]. *)
Record entry : Type := mkEntry {
  param : string;
  oparam : string;
  castable : bool;
  optional : bool
}.

Global Instance entry_eq_dec : EqDecision entry.
Proof. solve_decision. Defined.

Definition prefix : string := "model.layers.".

(** Lines 24-35: the four attention projections. *)
Definition attn_entries (layer : Z) : list entry :=
  [ mkEntry (prefix +:+ fmt_d layer +:+ ".self_attn.q_proj.qweight") ("dec" +:+ fmt_d layer +:+ "att.query.weights") false false;
    mkEntry (prefix +:+ fmt_d layer +:+ ".self_attn.q_proj.scales")  ("dec" +:+ fmt_d layer +:+ "att.query.scales") false false;
    mkEntry (prefix +:+ fmt_d layer +:+ ".self_attn.q_proj.qzeros")  ("dec" +:+ fmt_d layer +:+ "att.query.zeros") false false;
    mkEntry (prefix +:+ fmt_d layer +:+ ".self_attn.k_proj.qweight") ("dec" +:+ fmt_d layer +:+ "att.key.weights") false false;
    mkEntry (prefix +:+ fmt_d layer +:+ ".self_attn.k_proj.scales")  ("dec" +:+ fmt_d layer +:+ "att.key.scales") false false;
    mkEntry (prefix +:+ fmt_d layer +:+ ".self_attn.k_proj.qzeros")  ("dec" +:+ fmt_d layer +:+ "att.key.zeros") false false;
    mkEntry (prefix +:+ fmt_d layer +:+ ".self_attn.v_proj.qweight") ("dec" +:+ fmt_d layer +:+ "att.value.weights") false false;
    mkEntry (prefix +:+ fmt_d layer +:+ ".self_attn.v_proj.scales")  ("dec" +:+ fmt_d layer +:+ "att.value.scales") false false;
    mkEntry (prefix +:+ fmt_d layer +:+ ".self_attn.v_proj.qzeros")  ("dec" +:+ fmt_d layer +:+ "att.value.zeros") false false;
    mkEntry (prefix +:+ fmt_d layer +:+ ".self_attn.o_proj.qweight") ("dec" +:+ fmt_d layer +:+ "att.out.weights") false false;
    mkEntry (prefix +:+ fmt_d layer +:+ ".self_attn.o_proj.scales")  ("dec" +:+ fmt_d layer +:+ "att.out.scales") false false;
    mkEntry (prefix +:+ fmt_d layer +:+ ".self_attn.o_proj.qzeros")  ("dec" +:+ fmt_d layer +:+ "att.out.zeros") false false ].

(** Lines 36-47: the gate, up and down projections of the MLP. *)
Definition mlp_entries (layer : Z) : list entry :=
  [ mkEntry (prefix +:+ fmt_d layer +:+ ".mlp.gate_proj.qweight") ("dec" +:+ fmt_d layer +:+ "gate.weights") false false;
    mkEntry (prefix +:+ fmt_d layer +:+ ".mlp.gate_proj.bias")    ("dec" +:+ fmt_d layer +:+ "gate.bias") false true;
    mkEntry (prefix +:+ fmt_d layer +:+ ".mlp.gate_proj.scales")  ("dec" +:+ fmt_d layer +:+ "gate.scales") false false;
    mkEntry (prefix +:+ fmt_d layer +:+ ".mlp.gate_proj.qzeros")  ("dec" +:+ fmt_d layer +:+ "gate.zeros") false false;
    mkEntry (prefix +:+ fmt_d layer +:+ ".mlp.up_proj.qweight")   ("dec" +:+ fmt_d layer +:+ "up.weights") false false;
    mkEntry (prefix +:+ fmt_d layer +:+ ".mlp.up_proj.bias")      ("dec" +:+ fmt_d layer +:+ "up.bias") false true;
    mkEntry (prefix +:+ fmt_d layer +:+ ".mlp.up_proj.scales")    ("dec" +:+ fmt_d layer +:+ "up.scales") false false;
    mkEntry (prefix +:+ fmt_d layer +:+ ".mlp.up_proj.qzeros")    ("dec" +:+ fmt_d layer +:+ "up.zeros") false false;
    mkEntry (prefix +:+ fmt_d layer +:+ ".mlp.down_proj.qweight") ("dec" +:+ fmt_d layer +:+ "down.weights") false true;
    mkEntry (prefix +:+ fmt_d layer +:+ ".mlp.down_proj.bias")    ("dec" +:+ fmt_d layer +:+ "down.bias") false true;
    mkEntry (prefix +:+ fmt_d layer +:+ ".mlp.down_proj.scales")  ("dec" +:+ fmt_d layer +:+ "down.scales") false false;
    mkEntry (prefix +:+ fmt_d layer +:+ ".mlp.down_proj.qzeros")  ("dec" +:+ fmt_d layer +:+ "down.zeros") false false ].

(** Lines 48-49: the two layer norms. *)
Definition norm_entries (layer : Z) : list entry :=
  [ mkEntry (prefix +:+ fmt_d layer +:+ ".input_layernorm.weight")          ("dec" +:+ fmt_d layer +:+ "ln0.weights") true false;
    mkEntry (prefix +:+ fmt_d layer +:+ ".post_attention_layernorm.weight") ("dec" +:+ fmt_d layer +:+ "ln1.weights") true false ].

(** The body of the loop over the layers (lines 24-49): 26 appends. *)
Definition append_layer (paramlist : list entry) (layer : Z) : list entry :=
  paramlist ++ attn_entries layer ++ mlp_entries layer ++ norm_entries layer.

(** Lines 20-51. *)
Definition paramlist (num_layers : Z) : list entry :=
  let paramlist := [mkEntry "model.embed_tokens.weight" "embedding.embed" true false] in
  let paramlist := fold_left append_layer (range num_layers) paramlist in
  let paramlist := paramlist ++ [mkEntry "model.norm.weight" "modelnorm.weights" true false] in
  paramlist ++ [mkEntry "lm_head.weight" "tokenscoring.embed" true false].

(** ** The encoder *)

Section Encoder.

(** torch's conversion of one element between element types, on bit
    patterns: [convert src dst x].  Floating-point rounding is torch's
    business; the script only relies on the conversion being elementwise. *)
Variable convert : dtype → dtype → Z → Z.

(** [tensor.to(d)]: the tensor itself when it already has type [d]. *)
Definition to (d : dtype) (t : Tensor) : Tensor :=
  if decide (t_dtype t = d) then t
  else {| t_dtype := d; t_data := map (convert (t_dtype t) d) (t_data t) |}.

(** Lines 55-74: the body of the loop over [paramlist]. *)
Definition encode_entry (params : gmap string Tensor) (downcast : bool)
    (e : entry) (w : world) : flow :=
  match params !! param e with
  | None =>
      if optional e then Continue w
      else Return (RBool false)
             (print ("Parameters for " +:+ param e +:+ " not found, bailing out") w)
  | Some tensor =>
      let tensor := if downcast && castable e then to float16 tensor else tensor in
      if decide (t_dtype tensor = float32) then
        Continue (write ("float32/" +:+ oparam e) (tobytes tensor) w)
      else if decide (t_dtype tensor = float16) then
        Continue (write ("float16/" +:+ oparam e) (tobytes tensor) w)
      else if decide (t_dtype tensor = int32) then
        Continue (write ("int32/" +:+ oparam e) (tobytes tensor) w)
      else Return (RBool false) (print "Unknown data type" w)
  end.

(** Line 54: the [for] loop; running off the list ends the function with
    [None]. *)
Fixpoint encode_loop (params : gmap string Tensor) (downcast : bool)
    (l : list entry) (w : world) : retval * world :=
  match l with
  | [] => (RNone, w)
  | e :: l' =>
      match encode_entry params downcast e w with
      | Continue w' => encode_loop params downcast l' w'
      | Return v w' => (v, w')
      end
  end.

(** Lines 19-74.  The [with] statement closes the archive on every way out
    of its block, the two [return False] included.  [stdout] of the result
    holds the lines this call printed. *)
Definition reformat_quantized (params : gmap string Tensor) (num_layers : Z)
    (output_file : string) (downcast : bool) : retval * world :=
  let w := {| stdout := []; outfile := ZipFile_open output_file |} in
  let '(v, w) := encode_loop params downcast (paramlist num_layers) w in
  (v, {| stdout := stdout w; outfile := ZipFile_close (outfile w) |}).

End Encoder.

(** * Vocabulary of the statements *)

(** ** Names *)

Definition is_digit (c : ascii) : bool :=
  match c with
  | "0" | "1" | "2" | "3" | "4" | "5" | "6" | "7" | "8" | "9" => true
  | _ => false
  end%char.

(** The string is empty or its first character is not a digit. *)
Definition starts_nondigit (s : string) : Prop :=
  match s with
  | EmptyString => True
  | String c _ => is_digit c = false
  end.

(** [needle] occurs somewhere in [line]. *)
Definition mentions (needle line : string) : bool :=
  match Strings.String.index 0 needle line with
  | Some _ => true
  | None => false
  end.

(** The 26 tuples one turn of the layer loop appends. *)
Definition layer_entries (layer : Z) : list entry :=
  attn_entries layer ++ mlp_entries layer ++ norm_entries layer.

Definition embed_entry : entry := mkEntry "model.embed_tokens.weight" "embedding.embed" true false.
Definition norm_entry : entry := mkEntry "model.norm.weight" "modelnorm.weights" true false.
Definition head_entry : entry := mkEntry "lm_head.weight" "tokenscoring.embed" true false.

(** The names [pre ++ '%d' % i ++ s] for the endings [s] of a list. *)
Definition layer_names (pre : string) (sufs : list string) (i : Z) : list string :=
  map (fun s => pre +:+ fmt_d i +:+ s) sufs.

Definition oparam_suffixes : list string :=
  [ "att.query.weights"; "att.query.scales"; "att.query.zeros";
    "att.key.weights"; "att.key.scales"; "att.key.zeros";
    "att.value.weights"; "att.value.scales"; "att.value.zeros";
    "att.out.weights"; "att.out.scales"; "att.out.zeros";
    "gate.weights"; "gate.bias"; "gate.scales"; "gate.zeros";
    "up.weights"; "up.bias"; "up.scales"; "up.zeros";
    "down.weights"; "down.bias"; "down.scales"; "down.zeros";
    "ln0.weights"; "ln1.weights" ].

Definition param_suffixes : list string :=
  [ ".self_attn.q_proj.qweight"; ".self_attn.q_proj.scales"; ".self_attn.q_proj.qzeros";
    ".self_attn.k_proj.qweight"; ".self_attn.k_proj.scales"; ".self_attn.k_proj.qzeros";
    ".self_attn.v_proj.qweight"; ".self_attn.v_proj.scales"; ".self_attn.v_proj.qzeros";
    ".self_attn.o_proj.qweight"; ".self_attn.o_proj.scales"; ".self_attn.o_proj.qzeros";
    ".mlp.gate_proj.qweight"; ".mlp.gate_proj.bias"; ".mlp.gate_proj.scales"; ".mlp.gate_proj.qzeros";
    ".mlp.up_proj.qweight"; ".mlp.up_proj.bias"; ".mlp.up_proj.scales"; ".mlp.up_proj.qzeros";
    ".mlp.down_proj.qweight"; ".mlp.down_proj.bias"; ".mlp.down_proj.scales"; ".mlp.down_proj.qzeros";
    ".input_layernorm.weight"; ".post_attention_layernorm.weight" ].

(** ** What one entry does to the archive *)

(** The three directories of the archive. *)
Definition type_prefixes : list string := ["float32/"; "float16/"; "int32/"].

(** The directory the [if]/[elif] chain of lines 64-72 picks. *)
Definition type_prefix (d : dtype) : option string :=
  match d with
  | float32 => Some "float32/"
  | float16 => Some "float16/"
  | int32 => Some "int32/"
  | _ => None
  end.

(** The archive after some more files were written to it. *)
Definition add_files (fs : list (string * list byte)) (w : world) : world :=
  {| stdout := stdout w;
     outfile := {| z_filename := z_filename (outfile w);
                   z_filelist := z_filelist (outfile w) ++ fs;
                   z_closed := z_closed (outfile w) |} |}.

Section Outcome.

Variable convert : dtype → dtype → Z → Z.
Variable params : gmap string Tensor.
Variable downcast : bool.

(** The tensor the type test of line 64 looks at. *)
Definition resolved (e : entry) (t : Tensor) : Tensor :=
  if downcast && castable e then to convert float16 t else t.

(** The entry does not stop the conversion: its key is there and the tensor
    has one of the three types, or the key is not there and the entry is
    optional. *)
Definition entry_ok (e : entry) : bool :=
  match params !! param e with
  | None => optional e
  | Some t =>
      match type_prefix (t_dtype (resolved e t)) with
      | Some _ => true
      | None => false
      end
  end.

(** The files the entry adds to the archive: one or none. *)
Definition entry_files (e : entry) : list (string * list byte) :=
  match params !! param e with
  | None => []
  | Some t =>
      match type_prefix (t_dtype (resolved e t)) with
      | Some p => [(p +:+ oparam e, tobytes (resolved e t))]
      | None => []
      end
  end.

End Outcome.

(** ** Sample checkpoints *)

(** A stand-in for torch's conversion that keeps the bit pattern. *)
Definition keep_bits (src dst : dtype) (x : Z) : Z := x.

(** Two elements 1.0 as float32. *)
Definition ones_f32 : Tensor := mkTensor float32 [1065353216; 1065353216].
Definition ones_f64 : Tensor := mkTensor float64 [4607182418800017408; 4607182418800017408].
Definition ones_i32 : Tensor := mkTensor int32 [1; 1].

(** The dictionary that gives the tensor [t] to every key of the entries [l]. *)
Definition store_of (l : list entry) (t : Tensor) : gmap string Tensor :=
  list_to_map (map (fun e => (param e, t)) l).

(** A checkpoint without layers. *)
Definition store_globals (t1 t2 t3 : Tensor) : gmap string Tensor :=
  <["model.embed_tokens.weight" := t1]>
    (<["model.norm.weight" := t2]> (<["lm_head.weight" := t3]> ∅)).

(** A checkpoint that holds the embedding table and nothing else. *)
Definition store_embed_only : gmap string Tensor :=
  {[ "model.embed_tokens.weight" := ones_f32 ]}.

(** A one-layer checkpoint without the optional tensors. *)
Definition store_one_layer : gmap string Tensor :=
  store_of (List.filter (fun e => negb (optional e)) (paramlist 1)) ones_f32.

(** The tuple of the gate bias of layer 0. *)
Definition gate_bias_0 : entry :=
  mkEntry "model.layers.0.mlp.gate_proj.bias" "dec0gate.bias" false true.

(** ** The script (lines 77-85) *)

(** The exceptions the script can die of. *)
Inductive exception : Set := IndexError | ValueError | LoadError.

(** How the process ends: with [sys.exit(code)], status 0 when the script
    runs off its end, or with an exception nobody catches. *)
Inductive ending : Set := Exit (code : Z) | Uncaught (exc : exception).

(** What a run of the script leaves behind: the lines on the console, the
    way it ended, and the output file when the script got to open it. *)
Record process : Type := mkProcess {
  p_stdout : list string;
  p_ending : ending;
  p_archive : option ZipFile
}.

(** Line 80: the usage line. *)
Definition usage (argv0 : string) : string :=
  "Usage: " +:+ argv0 +:+ " <input pt file> <#layers> <outputfile>".

Section Script.

Variable convert : dtype → dtype → Z → Z.

(** [int(s)]; [None] stands for the [ValueError] it raises. *)
Variable py_int : string → option Z.

(** [torch.load(path)]; [None] stands for the exception it raises. *)
Variable torch_load : string → option (gmap string Tensor).

(** Lines 79-85, with [sys.argv] as argument.  The value the conversion
    returns is dropped. *)
Definition main (argv : list string) : process :=
  if (length argv <? 4)%nat then
    match argv !! 0%nat with
    | None => mkProcess [] (Uncaught IndexError) None
    | Some argv0 => mkProcess [usage argv0] (Exit 1) None
    end
  else
    match argv !! 2%nat with
    | None => mkProcess [] (Uncaught IndexError) None
    | Some a2 =>
        match py_int a2 with
        | None => mkProcess [] (Uncaught ValueError) None
        | Some numlayers =>
            match argv !! 1%nat with
            | None => mkProcess [] (Uncaught IndexError) None
            | Some a1 =>
                match torch_load a1 with
                | None => mkProcess [] (Uncaught LoadError) None
                | Some modeldata =>
                    match argv !! 3%nat with
                    | None => mkProcess [] (Uncaught IndexError) None
                    | Some a3 =>
                        let '(_, w) := reformat_quantized convert modeldata numlayers a3 true in
                        mkProcess (stdout w) (Exit 0) (Some (outfile w))
                    end
                end
            end
        end
    end.

End Script.

(** ** More sample data *)

(** A stand-in for [int] that reads plain decimal numerals. *)
Definition parse_decimal (s : string) : option Z :=
  option_map Z.of_int (NilZero.int_of_string s).

(** A stand-in for [torch.load] that knows one file. *)
Definition load_sample (path : string) : option (gmap string Tensor) :=
  if decide (path = "model.pt") then Some store_one_layer else None.

(** The one-layer checkpoint with a tensor the name map does not mention. *)
Definition store_with_attn_bias : gmap string Tensor :=
  <["model.layers.0.self_attn.q_proj.bias" := ones_f64]> store_one_layer.

(** The one-layer checkpoint with float64 query weights. *)
Definition store_f64_query : gmap string Tensor :=
  <["model.layers.0.self_attn.q_proj.qweight" := ones_f64]> store_one_layer.

(** ** The list object behind the name map *)

(** A Python list is an object that is changed in place.  The heap holds the
    items of every list object made so far; the identity of a list is its
    position in the heap, and no identity is used twice.

    [new_list items h] is a list display [[...]]: it makes a new object. *)
Definition new_list (items : list entry) (h : list (list entry)) : nat * list (list entry) :=
  (length h, h ++ [items]).

(** [l.append(x)]: the object [l] gets one more item, the others stay. *)
Definition list_append (l : nat) (x : entry) (h : list (list entry)) : list (list entry) :=
  alter (fun items => items ++ [x]) l h.

(** Lines 24-49 on the heap: the 26 calls of [paramlist.append]. *)
Definition append_layer_to (l : nat) (h : list (list entry)) (layer : Z) : list (list entry) :=
  fold_left (fun h x => list_append l x h)
            (attn_entries layer ++ mlp_entries layer ++ norm_entries layer) h.

(** Lines 20-51 as they run: line 20 binds the local name [paramlist] to a
    new list object, every later line appends to that object.  The result is
    the identity of the list and the heap the call leaves. *)
Definition build_paramlist (num_layers : Z) (h : list (list entry)) : nat * list (list entry) :=
  let '(pl, h) := new_list [mkEntry "model.embed_tokens.weight" "embedding.embed" true false] h in
  let h := fold_left (append_layer_to pl) (range num_layers) h in
  let h := list_append pl (mkEntry "model.norm.weight" "modelnorm.weights" true false) h in
  let h := list_append pl (mkEntry "lm_head.weight" "tokenscoring.embed" true false) h in
  (pl, h).

(** A heap on which some other list already lives. *)
Definition heap_with_a_list : list (list entry) := [[head_entry; head_entry]].

(** * Properties of the name map *)

(** ** Decimal numerals inside a name *)

Lemma append_String (c : ascii) (s t : string) : String c s +:+ t = String c (s +:+ t).
Proof. reflexivity. Qed.

Lemma append_Empty (t : string) : "" +:+ t = t.
Proof. reflexivity. Qed.

Create Rewrite HintDb strs.
#[local] Hint Rewrite append_String append_Empty : strs.

Lemma string_of_uint_app_inj (d1 d2 : Decimal.uint) (s1 s2 : string) :
  starts_nondigit s1 → starts_nondigit s2 →
  NilEmpty.string_of_uint d1 +:+ s1 = NilEmpty.string_of_uint d2 +:+ s2 →
  d1 = d2 ∧ s1 = s2.
Proof.
  intros H1 H2. revert d2.
  induction d1 as [|d1 IH|d1 IH|d1 IH|d1 IH|d1 IH|d1 IH|d1 IH|d1 IH|d1 IH|d1 IH];
    intros [|d2|d2|d2|d2|d2|d2|d2|d2|d2|d2]; simpl; intros E;
    autorewrite with strs in E;
    try (split; [reflexivity | assumption]);
    try (subst; simpl in *; discriminate);
    try (injection E as E; destruct (IH _ E) as [-> ->]; split; reflexivity);
    try discriminate.
Qed.

Lemma fmt_d_nonneg (z : Z) :
  0 ≤ z → ∃ d, Z.to_int z = Decimal.Pos d ∧ fmt_d z = NilEmpty.string_of_uint d.
Proof.
  unfold fmt_d. destruct z as [|p|p]; simpl; intros Hz; try lia; eauto.
Qed.

Lemma fmt_d_app_inj (i j : Z) (s1 s2 : string) :
  0 ≤ i → 0 ≤ j → starts_nondigit s1 → starts_nondigit s2 →
  fmt_d i +:+ s1 = fmt_d j +:+ s2 → i = j ∧ s1 = s2.
Proof.
  intros Hi Hj H1 H2 E.
  destruct (fmt_d_nonneg i Hi) as (di & Ti & Fi).
  destruct (fmt_d_nonneg j Hj) as (dj & Tj & Fj).
  rewrite Fi, Fj in E.
  destruct (string_of_uint_app_inj _ _ _ _ H1 H2 E) as [Ed Es].
  split; [|exact Es]. apply DecimalZ.to_int_inj. congruence.
Qed.

Lemma append_inj_r (p s1 s2 : string) : p +:+ s1 = p +:+ s2 → s1 = s2.
Proof. apply String.app_inj. Qed.

Lemma append_assoc (a b c : string) : (a +:+ b) +:+ c = a +:+ b +:+ c.
Proof. induction a as [|x a IH]; autorewrite with strs; [reflexivity|]. by rewrite IH. Qed.

(** ** The shape of the list *)

Lemma fold_append_layer (layers : list Z) (acc : list entry) :
  fold_left append_layer layers acc = acc ++ flat_map layer_entries layers.
Proof.
  revert acc. induction layers as [|i layers IH]; intros acc; simpl.
  - by rewrite app_nil_r.
  - rewrite IH. unfold append_layer, layer_entries. by rewrite <- !app_assoc.
Qed.

Lemma paramlist_eq (num_layers : Z) :
  paramlist num_layers =
  embed_entry :: flat_map layer_entries (range num_layers) ++ [norm_entry; head_entry].
Proof.
  unfold paramlist. rewrite fold_append_layer. simpl. by rewrite <- app_assoc.
Qed.

Lemma length_layer_entries (layer : Z) : length (layer_entries layer) = 26%nat.
Proof. reflexivity. Qed.

Lemma length_flat_layers (layers : list Z) :
  length (flat_map layer_entries layers) = (26 * length layers)%nat.
Proof.
  induction layers as [|i layers IH]; [reflexivity|].
  change (flat_map layer_entries (i :: layers))
    with (layer_entries i ++ flat_map layer_entries layers).
  rewrite length_app, IH, length_layer_entries. simpl. lia.
Qed.

Lemma length_range (n : Z) : length (range n) = Z.to_nat n.
Proof. unfold range. by rewrite length_map, length_seq. Qed.

Lemma length_paramlist (num_layers : Z) :
  length (paramlist num_layers) = (3 + 26 * Z.to_nat num_layers)%nat.
Proof.
  rewrite paramlist_eq. simpl. rewrite length_app, length_flat_layers, length_range.
  simpl. lia.
Qed.

Lemma range_nonneg (n i : Z) : In i (range n) → 0 ≤ i.
Proof. unfold range. rewrite in_map_iff. intros (k & <- & _). lia. Qed.

Lemma NoDup_range (n : Z) : NoDup (range n).
Proof.
  unfold range. apply (NoDup_fmap_2 Z.of_nat), NoDup_seq.
Qed.

(** ** Names built from a layer index are pairwise distinct *)

Section LayerNames.

Variable pre : string.
Variable sufs : list string.
Hypothesis sufs_NoDup : NoDup sufs.
Hypothesis sufs_nondigit : Forall starts_nondigit sufs.

Lemma layer_name_inj (i j : Z) (s1 s2 : string) :
  0 ≤ i → 0 ≤ j → In s1 sufs → In s2 sufs →
  pre +:+ fmt_d i +:+ s1 = pre +:+ fmt_d j +:+ s2 → i = j ∧ s1 = s2.
Proof.
  intros Hi Hj I1 I2 E. apply append_inj_r in E.
  rewrite Forall_forall in sufs_nondigit.
  apply fmt_d_app_inj in E; auto; apply sufs_nondigit; by apply list_elem_of_In.
Qed.

Lemma NoDup_layer_names (i : Z) : NoDup (layer_names pre sufs i).
Proof.
  unfold layer_names. apply (NoDup_fmap_2_strong (λ s, pre +:+ fmt_d i +:+ s)); [|done].
  intros x y _ _ E. apply append_inj_r, append_inj_r in E. exact E.
Qed.

Lemma NoDup_flat_layer_names (layers : list Z) :
  NoDup layers → (∀ i, In i layers → 0 ≤ i) →
  NoDup (flat_map (layer_names pre sufs) layers).
Proof.
  induction layers as [|i layers IH]; intros ND Hpos; simpl; [constructor|].
  apply NoDup_cons in ND as [Hi ND].
  apply NoDup_app. split; [apply NoDup_layer_names|]. split.
  - intros x Hx Hx'. apply list_elem_of_In in Hx, Hx'.
    unfold layer_names in Hx. apply in_map_iff in Hx as (s1 & <- & I1).
    apply in_flat_map in Hx' as (j & Hj & Hx').
    unfold layer_names in Hx'. apply in_map_iff in Hx' as (s2 & E & I2).
    apply layer_name_inj in E as [-> _]; auto.
    + apply Hi. by apply list_elem_of_In.
    + apply Hpos. by right.
    + apply Hpos. by left.
  - apply IH; [done|]. intros j Hj. apply Hpos. by right.
Qed.

Lemma in_flat_layer_names (layers : list Z) (x : string) :
  In x (flat_map (layer_names pre sufs) layers) → ∃ r, x = pre +:+ r.
Proof.
  rewrite in_flat_map. intros (i & _ & Hx).
  unfold layer_names in Hx. apply in_map_iff in Hx as (s & <- & _). eauto.
Qed.

(** The whole list of names: one global name, the layers, two global names. *)
Lemma NoDup_all_names (layers : list Z) (x y z : string) :
  NoDup layers → (∀ i, In i layers → 0 ≤ i) →
  NoDup [x; y; z] → (∀ g r, In g [x; y; z] → g ≠ pre +:+ r) →
  NoDup (x :: flat_map (layer_names pre sufs) layers ++ [y; z]).
Proof.
  intros ND Hpos Hxyz Hpre.
  assert (Hfresh : ∀ g, In g [x; y; z] → ¬ In g (flat_map (layer_names pre sufs) layers)).
  { intros g Hg Hin. apply in_flat_layer_names in Hin as [r ->]. by apply (Hpre _ r Hg). }
  apply NoDup_cons in Hxyz as [Hx Hyz].
  apply NoDup_cons. split.
  - rewrite list_elem_of_In, in_app_iff. intros [Hin|Hin].
    + apply (Hfresh x); [by left|done].
    + apply Hx. by apply list_elem_of_In.
  - apply NoDup_app. split; [by apply NoDup_flat_layer_names|]. split; [|done].
    intros g Hg Hg'. apply list_elem_of_In in Hg, Hg'.
    apply (Hfresh g); [by right|done].
Qed.

End LayerNames.

Lemma oparam_layer_entries (layer : Z) :
  map oparam (layer_entries layer) = layer_names "dec" oparam_suffixes layer.
Proof. reflexivity. Qed.

Lemma param_layer_entries (layer : Z) :
  map param (layer_entries layer) = layer_names prefix param_suffixes layer.
Proof. reflexivity. Qed.

Lemma map_flat_layers {B : Type} (f : entry → B) (g : Z → list B) (layers : list Z) :
  (∀ i, map f (layer_entries i) = g i) →
  map f (flat_map layer_entries layers) = flat_map g layers.
Proof.
  intros Hfg. induction layers as [|i layers IH]; [reflexivity|].
  change (flat_map layer_entries (i :: layers))
    with (layer_entries i ++ flat_map layer_entries layers).
  rewrite map_app, IH, Hfg. reflexivity.
Qed.

Lemma oparam_paramlist (num_layers : Z) :
  map oparam (paramlist num_layers) =
  "embedding.embed" :: flat_map (layer_names "dec" oparam_suffixes) (range num_layers)
    ++ ["modelnorm.weights"; "tokenscoring.embed"].
Proof.
  rewrite paramlist_eq. simpl. rewrite map_app.
  by rewrite (map_flat_layers oparam _ _ oparam_layer_entries).
Qed.

Lemma param_paramlist (num_layers : Z) :
  map param (paramlist num_layers) =
  "model.embed_tokens.weight" :: flat_map (layer_names prefix param_suffixes) (range num_layers)
    ++ ["model.norm.weight"; "lm_head.weight"].
Proof.
  rewrite paramlist_eq. simpl. rewrite map_app.
  by rewrite (map_flat_layers param _ _ param_layer_entries).
Qed.

Ltac not_prefixed :=
  let g := fresh in let r := fresh in let H := fresh in let E := fresh in
  intros g r H E; simpl in H; unfold prefix in E; autorewrite with strs in E;
  intuition (subst; discriminate).

(** Archive names are never used twice. *)
Lemma NoDup_oparam (num_layers : Z) : NoDup (map oparam (paramlist num_layers)).
Proof.
  rewrite oparam_paramlist. apply NoDup_all_names.
  - by compute_done.
  - apply Forall_forall. intros s Hs. apply list_elem_of_In in Hs.
    simpl in Hs. intuition (subst; reflexivity).
  - apply NoDup_range.
  - apply range_nonneg.
  - by compute_done.
  - not_prefixed.
Qed.

(** Neither are the keys of the checkpoint. *)
Lemma NoDup_param (num_layers : Z) : NoDup (map param (paramlist num_layers)).
Proof.
  rewrite param_paramlist. apply NoDup_all_names.
  - by compute_done.
  - apply Forall_forall. intros s Hs. apply list_elem_of_In in Hs.
    simpl in Hs. intuition (subst; reflexivity).
  - apply NoDup_range.
  - apply range_nonneg.
  - by compute_done.
  - not_prefixed.
Qed.

(** An entry is known by its archive name. *)
Lemma oparam_inj (num_layers : Z) (e1 e2 : entry) :
  In e1 (paramlist num_layers) → In e2 (paramlist num_layers) →
  oparam e1 = oparam e2 → e1 = e2.
Proof.
  intros H1 H2 E. pose proof (NoDup_oparam num_layers) as ND.
  revert H1 H2 ND. generalize (paramlist num_layers) as l.
  induction l as [|a l IH]; simpl; [done|]. intros H1 H2 ND.
  apply NoDup_cons in ND as [Ha ND]. rewrite list_elem_of_In in Ha.
  destruct H1 as [->|H1], H2 as [->|H2]; auto.
  - exfalso. apply Ha. rewrite E. by apply in_map.
  - exfalso. apply Ha. rewrite <- E. by apply in_map.
Qed.

(** * Properties of tensors *)

Lemma length_le_bytes (n : nat) (z : Z) : length (le_bytes n z) = n.
Proof. unfold le_bytes. by rewrite length_map, length_seq. Qed.

Lemma length_tobytes (t : Tensor) :
  length (tobytes t) = (itemsize (t_dtype t) * numel t)%nat.
Proof.
  unfold tobytes, numel. induction (t_data t) as [|x xs IH]; simpl; [lia|].
  rewrite length_app, length_le_bytes, IH. lia.
Qed.

Lemma to_dtype (convert : dtype → dtype → Z → Z) (d : dtype) (t : Tensor) :
  t_dtype (to convert d t) = d.
Proof. unfold to. by destruct (decide (t_dtype t = d)). Qed.

Lemma numel_to (convert : dtype → dtype → Z → Z) (d : dtype) (t : Tensor) :
  numel (to convert d t) = numel t.
Proof.
  unfold to, numel. destruct (decide (t_dtype t = d)); simpl; [done|].
  by rewrite length_map.
Qed.

(** A float32 tensor takes four bytes per element, its float16 copy two. *)
Lemma length_tobytes_float32 (t : Tensor) :
  t_dtype t = float32 → length (tobytes t) = (4 * numel t)%nat.
Proof. intros E. by rewrite length_tobytes, E. Qed.

Lemma length_tobytes_to_float16 (convert : dtype → dtype → Z → Z) (t : Tensor) :
  length (tobytes (to convert float16 t)) = (2 * numel t)%nat.
Proof. by rewrite length_tobytes, to_dtype, numel_to. Qed.

(** * Properties of the encoder *)

Lemma add_files_nil (w : world) : add_files [] w = w.
Proof. destruct w as [out [name files closed]]. unfold add_files; simpl. by rewrite app_nil_r. Qed.

Lemma add_files_app (fs gs : list (string * list byte)) (w : world) :
  add_files gs (add_files fs w) = add_files (fs ++ gs) w.
Proof. unfold add_files; simpl. by rewrite app_assoc. Qed.

Lemma type_prefix_In (d : dtype) (p : string) : type_prefix d = Some p → In p type_prefixes.
Proof. destruct d; simpl; intros E; simplify_eq; tauto. Qed.

(** A directory and a name inside it can be read back from the path. *)
Lemma type_prefix_name_inj (p1 p2 s1 s2 : string) :
  In p1 type_prefixes → In p2 type_prefixes →
  p1 +:+ s1 = p2 +:+ s2 → p1 = p2 ∧ s1 = s2.
Proof.
  simpl. intros H1 H2 E.
  destruct H1 as [<-|[<-|[<-|[]]]], H2 as [<-|[<-|[<-|[]]]];
    autorewrite with strs in E; try discriminate;
    split; try reflexivity; by simplify_eq.
Qed.

Section EncoderFacts.

Variable convert : dtype → dtype → Z → Z.
Variable params : gmap string Tensor.
Variable downcast : bool.

Abbreviation ok := (entry_ok convert params downcast).
Abbreviation files := (entry_files convert params downcast).
Abbreviation body := (encode_entry convert params downcast).
Abbreviation loop := (encode_loop convert params downcast).

Lemma type_prefix_body (e : entry) (t : Tensor) (w : world) :
  params !! param e = Some t →
  body e w =
  match type_prefix (t_dtype (resolved convert downcast e t)) with
  | Some p => Continue (write (p +:+ oparam e) (tobytes (resolved convert downcast e t)) w)
  | None => Return (RBool false) (print "Unknown data type" w)
  end.
Proof.
  intros Ht. unfold encode_entry. rewrite Ht. fold (resolved convert downcast e t).
  destruct (t_dtype (resolved convert downcast e t)); reflexivity.
Qed.

Lemma encode_entry_ok (e : entry) (w : world) :
  ok e = true → body e w = Continue (add_files (files e) w).
Proof.
  unfold entry_ok, entry_files. destruct (params !! param e) as [t|] eqn:Ht.
  - rewrite (type_prefix_body e t w Ht).
    destruct (type_prefix _) as [p|]; [reflexivity|discriminate].
  - intros Hopt. unfold encode_entry. rewrite Ht, Hopt. by rewrite add_files_nil.
Qed.

Lemma encode_entry_missing (e : entry) (w : world) :
  params !! param e = None → optional e = false →
  body e w = Return (RBool false)
               (print ("Parameters for " +:+ param e +:+ " not found, bailing out") w).
Proof. intros Ht Hopt. unfold encode_entry. by rewrite Ht, Hopt. Qed.

Lemma encode_entry_unknown (e : entry) (t : Tensor) (w : world) :
  params !! param e = Some t →
  type_prefix (t_dtype (resolved convert downcast e t)) = None →
  body e w = Return (RBool false) (print "Unknown data type" w).
Proof. intros Ht Hp. by rewrite (type_prefix_body e t w Ht), Hp. Qed.

Lemma encode_entry_fail (e : entry) :
  ok e = false → ∃ line, ∀ w, body e w = Return (RBool false) (print line w).
Proof.
  unfold entry_ok. destruct (params !! param e) as [t|] eqn:Ht.
  - destruct (type_prefix _) eqn:Hp; [discriminate|]. intros _.
    eexists. intros w. by apply (encode_entry_unknown e t).
  - intros Hopt. eexists. intros w. by apply encode_entry_missing.
Qed.

Lemma encode_loop_app (l1 l2 : list entry) (w : world) :
  forallb ok l1 = true →
  loop (l1 ++ l2) w = loop l2 (add_files (flat_map files l1) w).
Proof.
  revert w. induction l1 as [|e l1 IH]; intros w; simpl.
  - by rewrite add_files_nil.
  - intros [He Hl]%andb_prop. rewrite (encode_entry_ok e w He), IH by done.
    by rewrite add_files_app.
Qed.

Lemma encode_loop_ok (l : list entry) (w : world) :
  forallb ok l = true → loop l w = (RNone, add_files (flat_map files l) w).
Proof.
  intros Hl. rewrite <- (app_nil_r l) at 1. by rewrite encode_loop_app.
Qed.

(** The first entry that stops the conversion, when there is one. *)
Lemma first_failure (l : list entry) :
  forallb ok l = false →
  ∃ l1 e l2, l = l1 ++ e :: l2 ∧ forallb ok l1 = true ∧ ok e = false.
Proof.
  induction l as [|a l IH]; simpl; [discriminate|].
  destruct (ok a) eqn:Ha; simpl.
  - intros (l1 & e & l2 & -> & H1 & He)%IH.
    exists (a :: l1), e, l2. simpl. by rewrite Ha, H1.
  - intros _. by exists [], a, l.
Qed.

Lemma encode_loop_abort (l1 l2 : list entry) (e : entry) (v : retval) (line : string) (w : world) :
  forallb ok l1 = true →
  (∀ w', body e w' = Return v (print line w')) →
  loop (l1 ++ e :: l2) w = (v, print line (add_files (flat_map files l1) w)).
Proof. intros H1 He. rewrite encode_loop_app by done. simpl. by rewrite He. Qed.

(** A file in the archive was put there by an entry whose key is present. *)
Lemma in_entry_files (e : entry) (name : string) (data : list byte) :
  In (name, data) (files e) →
  ∃ t p, params !! param e = Some t ∧
         type_prefix (t_dtype (resolved convert downcast e t)) = Some p ∧
         name = p +:+ oparam e ∧ data = tobytes (resolved convert downcast e t).
Proof.
  unfold entry_files. destruct (params !! param e) as [t|]; [|intros []].
  destruct (type_prefix _) as [p|] eqn:Hp; [|intros []].
  intros [E|[]]. simplify_eq. by exists t, p.
Qed.

Lemma files_missing (e : entry) : params !! param e = None → files e = [].
Proof. unfold entry_files. by intros ->. Qed.

Variable num_layers : Z.
Variable output_file : string.

Abbreviation run := (reformat_quantized convert params num_layers output_file downcast).

Lemma reformat_ok :
  forallb ok (paramlist num_layers) = true →
  run = (RNone, {| stdout := [];
                   outfile := mkZip output_file (flat_map files (paramlist num_layers)) true |}).
Proof. intros Hl. unfold reformat_quantized. by rewrite encode_loop_ok. Qed.

Lemma reformat_abort (l1 l2 : list entry) (e : entry) (v : retval) (line : string) :
  paramlist num_layers = l1 ++ e :: l2 →
  forallb ok l1 = true →
  (∀ w, body e w = Return v (print line w)) →
  run = (v, {| stdout := [line]; outfile := mkZip output_file (flat_map files l1) true |}).
Proof.
  intros El H1 He. unfold reformat_quantized.
  by rewrite El, (encode_loop_abort l1 l2 e v line).
Qed.

(** Every call ends in one of two ways. *)
Lemma reformat_cases :
  (forallb ok (paramlist num_layers) = true ∧
   run = (RNone, {| stdout := [];
                    outfile := mkZip output_file (flat_map files (paramlist num_layers)) true |}))
  ∨ (∃ l1 e l2 line,
       paramlist num_layers = l1 ++ e :: l2 ∧ forallb ok l1 = true ∧ ok e = false ∧
       run = (RBool false, {| stdout := [line];
                              outfile := mkZip output_file (flat_map files l1) true |})).
Proof.
  destruct (forallb ok (paramlist num_layers)) eqn:Hall.
  - left. split; [done|]. by apply reformat_ok.
  - right. destruct (first_failure _ Hall) as (l1 & e & l2 & El & H1 & He).
    destruct (encode_entry_fail e He) as [line Hline].
    exists l1, e, l2, line. repeat split; try done.
    by apply (reformat_abort l1 l2 e).
Qed.

(** The archive is closed whichever way the call ends. *)
Lemma reformat_closed : z_closed (outfile (snd run)) = true.
Proof.
  destruct reformat_cases as [[_ ->]|(l1 & e & l2 & line & _ & _ & _ & ->)]; reflexivity.
Qed.

Lemma reformat_files_sub (x : string * list byte) :
  In x (z_filelist (outfile (snd run))) → In x (flat_map files (paramlist num_layers)).
Proof.
  destruct reformat_cases as [[_ ->]|(l1 & e & l2 & line & El & _ & _ & ->)]; simpl; [done|].
  rewrite El, flat_map_app, in_app_iff. by left.
Qed.

(** What is stored under the archive name of an entry comes from that
    entry. *)
Lemma reformat_file_origin (e : entry) (pfx : string) (data : list byte) :
  In e (paramlist num_layers) → In pfx type_prefixes →
  In (pfx +:+ oparam e, data) (z_filelist (outfile (snd run))) →
  In (pfx +:+ oparam e, data) (files e).
Proof.
  intros He Hpfx Hin. apply reformat_files_sub, in_flat_map in Hin as (e' & He' & Hin).
  destruct (in_entry_files _ _ _ Hin) as (t & p & _ & Hp & E & _).
  apply type_prefix_name_inj in E as [_ E]; [|done|by apply (type_prefix_In _ _ Hp)].
  by pose proof (oparam_inj num_layers e e' He He' E) as <-.
Qed.

Lemma encode_entry_files_mono (e : entry) (w : world) (x : string * list byte) :
  In x (z_filelist (outfile w)) →
  match body e w with
  | Continue w' | Return _ w' => In x (z_filelist (outfile w'))
  end.
Proof.
  intros Hx. destruct (ok e) eqn:He.
  - rewrite (encode_entry_ok e w He). simpl. rewrite in_app_iff. by left.
  - destruct (encode_entry_fail e He) as [line ->]. done.
Qed.

Lemma encode_loop_files_mono (l : list entry) (w : world) (x : string * list byte) :
  In x (z_filelist (outfile w)) → In x (z_filelist (outfile (snd (loop l w)))).
Proof.
  revert w. induction l as [|e l IH]; intros w Hx; simpl; [done|].
  pose proof (encode_entry_files_mono e w x Hx) as Hstep.
  destruct (body e w) as [w'|v w']; [by apply IH|done].
Qed.

(** An entry that is reached and does not stop the conversion leaves its
    files in the archive, whatever happens later. *)
Lemma reformat_reached (l1 l2 : list entry) (e : entry) (x : string * list byte) :
  paramlist num_layers = l1 ++ e :: l2 →
  forallb ok l1 = true → ok e = true → In x (files e) →
  In x (z_filelist (outfile (snd run))).
Proof.
  intros El H1 He Hx. unfold reformat_quantized. rewrite El.
  change (l1 ++ e :: l2) with (l1 ++ [e] ++ l2). rewrite app_assoc.
  rewrite encode_loop_app by (rewrite forallb_app, H1; simpl; by rewrite He).
  match goal with |- context [loop l2 ?w] =>
    pose proof (encode_loop_files_mono l2 w x) as Hmono;
    destruct (loop l2 w) as [v w'] end.
  simpl in *. apply Hmono. rewrite flat_map_app, !in_app_iff. simpl.
  rewrite app_nil_r. auto.
Qed.

End EncoderFacts.

(** * The name map: count, attributes, determinism *)

(** C2, as the specification words it, fails already without layers: the
    list then holds three tuples, not two. *)
Lemma paramlist_0_has_three_entries :
  paramlist 0 = [embed_entry; norm_entry; head_entry] ∧
  Z.of_nat (length (paramlist 0)) ≠ 2 + 26 * 0.
Proof. split; [reflexivity|]. vm_compute. discriminate. Qed.

(** C2 (amended): for every layer count [num_layers >= 0] the name map holds
    exactly [3 + 26 * num_layers] tuples (the embedding table, 26 for each
    layer in turn, the final norm and the output head), and the archive names
    in it are pairwise distinct. *)
Theorem paramlist_count_and_distinct_names (num_layers : Z) :
  0 ≤ num_layers →
  Z.of_nat (length (paramlist num_layers)) = 3 + 26 * num_layers ∧
  paramlist num_layers =
    embed_entry :: flat_map layer_entries (range num_layers) ++ [norm_entry; head_entry] ∧
  (∀ layer, length (layer_entries layer) = 26%nat) ∧
  NoDup (map oparam (paramlist num_layers)).
Proof.
  intros Hn. split; [|split; [|split]].
  - rewrite length_paramlist. lia.
  - apply paramlist_eq.
  - apply length_layer_entries.
  - apply NoDup_oparam.
Qed.

Lemma paramlist_count_and_distinct_names_witness :
  0 ≤ 2 ∧
  (Z.of_nat (length (paramlist 2)) = 3 + 26 * 2 ∧
   paramlist 2 = embed_entry :: flat_map layer_entries (range 2) ++ [norm_entry; head_entry] ∧
   (∀ layer, length (layer_entries layer) = 26%nat) ∧
   NoDup (map oparam (paramlist 2))).
Proof. split; [lia | apply (paramlist_count_and_distinct_names 2); lia]. Defined.

(** C3 holds for eleven of the twelve MLP tuples only: line 44 marks the
    weights of the down projection optional, unlike the weights of the gate
    and up projections, so four MLP tuples are optional in each layer and a
    checkpoint that lacks [model.layers.0.mlp.down_proj.qweight] is converted
    without complaint. *)
Theorem mlp_down_weights_marked_optional :
  (∀ layer : Z,
     map (fun e => (oparam e, optional e)) (mlp_entries layer) =
     [ ("dec" +:+ fmt_d layer +:+ "gate.weights", false);
       ("dec" +:+ fmt_d layer +:+ "gate.bias", true);
       ("dec" +:+ fmt_d layer +:+ "gate.scales", false);
       ("dec" +:+ fmt_d layer +:+ "gate.zeros", false);
       ("dec" +:+ fmt_d layer +:+ "up.weights", false);
       ("dec" +:+ fmt_d layer +:+ "up.bias", true);
       ("dec" +:+ fmt_d layer +:+ "up.scales", false);
       ("dec" +:+ fmt_d layer +:+ "up.zeros", false);
       ("dec" +:+ fmt_d layer +:+ "down.weights", true);
       ("dec" +:+ fmt_d layer +:+ "down.bias", true);
       ("dec" +:+ fmt_d layer +:+ "down.scales", false);
       ("dec" +:+ fmt_d layer +:+ "down.zeros", false) ]) ∧
  map param (List.filter optional (paramlist 1)) =
    [ "model.layers.0.mlp.gate_proj.bias"; "model.layers.0.mlp.up_proj.bias";
      "model.layers.0.mlp.down_proj.qweight"; "model.layers.0.mlp.down_proj.bias" ] ∧
  store_one_layer !! "model.layers.0.mlp.down_proj.qweight" = None ∧
  fst (reformat_quantized keep_bits store_one_layer 1 "out.zip" true) = RNone.
Proof.
  split; [reflexivity|]. split; [reflexivity|]. split; [reflexivity|].
  vm_compute. reflexivity.
Qed.

(** C5, as the specification words it, fails in layer 0 (as in every layer):
    the attention part is twelve tuples long, not nine. *)
Lemma attn_entries_0_not_nine :
  length (attn_entries 0) = 12%nat ∧ length (attn_entries 0) ≠ 9%nat.
Proof. split; [reflexivity|]. vm_compute. discriminate. Qed.

(** C5 (amended): in every layer the attention part of the name map is
    exactly 12 tuples, a weight, a scale and a zero-point tensor for each of
    the query, key, value and output projections, all mandatory and none
    eligible for the downcast. *)
Theorem attn_entries_twelve_mandatory (layer : Z) :
  length (attn_entries layer) = 12%nat ∧
  map (fun e => (param e, oparam e)) (attn_entries layer) =
    flat_map (fun '(src, dst) =>
      [ (prefix +:+ fmt_d layer +:+ ".self_attn." +:+ src +:+ "_proj.qweight",
         "dec" +:+ fmt_d layer +:+ "att." +:+ dst +:+ ".weights");
        (prefix +:+ fmt_d layer +:+ ".self_attn." +:+ src +:+ "_proj.scales",
         "dec" +:+ fmt_d layer +:+ "att." +:+ dst +:+ ".scales");
        (prefix +:+ fmt_d layer +:+ ".self_attn." +:+ src +:+ "_proj.qzeros",
         "dec" +:+ fmt_d layer +:+ "att." +:+ dst +:+ ".zeros") ])
      [("q", "query"); ("k", "key"); ("v", "value"); ("o", "out")] ∧
  Forall (fun e => optional e = false ∧ castable e = false) (attn_entries layer).
Proof.
  split; [reflexivity|]. split; [reflexivity|].
  unfold attn_entries. repeat constructor.
Qed.

Lemma list_append_new (h : list (list entry)) (items : list entry) (x : entry) :
  list_append (length h) x (h ++ [items]) = h ++ [items ++ [x]].
Proof.
  unfold list_append. rewrite <- (Nat.add_0_r (length h)) at 1.
  by rewrite alter_app_r.
Qed.

Lemma list_append_all_new (h : list (list entry)) (xs items : list entry) :
  fold_left (fun h' x => list_append (length h) x h') xs (h ++ [items]) = h ++ [items ++ xs].
Proof.
  revert items. induction xs as [|x xs IH]; intros items; simpl.
  - by rewrite app_nil_r.
  - rewrite list_append_new, IH. by rewrite <- app_assoc.
Qed.

Lemma append_layers_new (h : list (list entry)) (layers : list Z) (items : list entry) :
  fold_left (append_layer_to (length h)) layers (h ++ [items]) =
  h ++ [fold_left append_layer layers items].
Proof.
  revert items. induction layers as [|i layers IH]; intros items; [done|].
  change (fold_left (append_layer_to (length h)) (i :: layers) (h ++ [items]))
    with (fold_left (append_layer_to (length h)) layers
            (append_layer_to (length h) (h ++ [items]) i)).
  unfold append_layer_to at 2. rewrite list_append_all_new. by rewrite IH.
Qed.

(** The call makes one new list object, fills it with the name map, and
    leaves every list that was there before as it was. *)
Lemma build_paramlist_heap (num_layers : Z) (h : list (list entry)) :
  build_paramlist num_layers h = (length h, h ++ [paramlist num_layers]).
Proof.
  unfold build_paramlist, new_list, paramlist.
  by rewrite append_layers_new, !list_append_new.
Qed.

(** C9: building the name map is deterministic.  The list a call builds
    depends on the layer count alone and not on the lists the program made
    before: calls with equal layer counts from any two heaps give the same
    list, item by item in the same order; a second call right after a first
    one makes a list object of its own with the same items, and leaves the
    list of the first call as it was. *)
Theorem build_paramlist_deterministic (h h' : list (list entry)) (n1 n2 : Z) :
  n1 = n2 →
  snd (build_paramlist n1 h) !! fst (build_paramlist n1 h) =
    snd (build_paramlist n2 h') !! fst (build_paramlist n2 h') ∧
  (∀ i : nat,
     (snd (build_paramlist n1 h) !! fst (build_paramlist n1 h)) ≫= (.!! i) =
     (snd (build_paramlist n2 h') !! fst (build_paramlist n2 h')) ≫= (.!! i)) ∧
  fst (build_paramlist n2 (snd (build_paramlist n1 h))) ≠ fst (build_paramlist n1 h) ∧
  snd (build_paramlist n2 (snd (build_paramlist n1 h)))
    !! fst (build_paramlist n2 (snd (build_paramlist n1 h))) =
    snd (build_paramlist n1 h) !! fst (build_paramlist n1 h) ∧
  snd (build_paramlist n2 (snd (build_paramlist n1 h))) !! fst (build_paramlist n1 h) =
    snd (build_paramlist n1 h) !! fst (build_paramlist n1 h) ∧
  snd (build_paramlist n1 h) !! fst (build_paramlist n1 h) = Some (paramlist n1).
Proof.
  intros <-. rewrite !build_paramlist_heap. simpl.
  assert (Hnew : ∀ (g : list (list entry)) (l : list entry), (g ++ [l]) !! length g = Some l).
  { intros g l. rewrite lookup_app_r by lia. by rewrite Nat.sub_diag. }
  rewrite !Hnew. split; [done|]. split; [done|]. split.
  - rewrite length_app. simpl. lia.
  - split; [done|]. split; [|done].
    rewrite lookup_app_l by (rewrite length_app; simpl; lia). apply Hnew.
Qed.

Lemma build_paramlist_deterministic_witness :
  2 = 1 + 1 ∧
  snd (build_paramlist 2 heap_with_a_list) !! fst (build_paramlist 2 heap_with_a_list) =
    snd (build_paramlist (1 + 1) []) !! fst (build_paramlist (1 + 1) []) ∧
  snd (build_paramlist 2 heap_with_a_list) !! fst (build_paramlist 2 heap_with_a_list) =
    Some (paramlist 2).
Proof.
  assert (H : 2 = 1 + 1) by lia.
  destruct (build_paramlist_deterministic heap_with_a_list [] 2 (1 + 1) H)
    as (H1 & _ & _ & _ & _ & H2).
  split; [exact H|]. split; [exact H1|exact H2].
Defined.

(** * The encoder: aborts *)

Lemma type_prefix_None (d : dtype) :
  d ≠ float32 → d ≠ float16 → d ≠ int32 → type_prefix d = None.
Proof. destruct d; simpl; congruence. Qed.

Lemma forallb_In_false {A : Type} (f : A → bool) (l : list A) (x : A) :
  In x l → f x = false → forallb f l = false.
Proof.
  intros Hx Hf. destruct (forallb f l) eqn:E; [|done].
  rewrite forallb_forall in E. by rewrite (E x Hx) in Hf.
Qed.

(** C1, as the specification words it, fails on a checkpoint that holds only
    the embedding table: the mandatory key [model.norm.weight] is missing,
    the call gives [False], and yet the archive was closed, with the one
    file written before the abort in it. *)
Lemma missing_key_archive_closed :
  In norm_entry (paramlist 0) ∧ optional norm_entry = false ∧
  store_embed_only !! param norm_entry = None ∧
  reformat_quantized keep_bits store_embed_only 0 "out.zip" false =
    (RBool false,
     {| stdout := ["Parameters for model.norm.weight not found, bailing out"];
        outfile := mkZip "out.zip" [("float32/embedding.embed", tobytes ones_f32)] true |}) ∧
  z_closed (outfile (snd (reformat_quantized keep_bits store_embed_only 0 "out.zip" false)))
    ≠ false.
Proof.
  split; [right; left; reflexivity|]. split; [reflexivity|]. split; [reflexivity|].
  split; [vm_compute; reflexivity|]. vm_compute. discriminate.
Qed.

(** C1 (amended): if the key of a mandatory tuple is absent from the
    checkpoint, the call gives [False] and the [with] statement closes the
    archive.  When that tuple is the first one to stop the conversion, the
    call prints the line that names the missing key and nothing else, and the
    closed archive holds the files of the tuples before it and no others. *)
Theorem missing_mandatory_aborts (convert : dtype → dtype → Z → Z)
    (params : gmap string Tensor) (num_layers : Z) (output_file : string)
    (downcast : bool) (e : entry) :
  In e (paramlist num_layers) → optional e = false → params !! param e = None →
  fst (reformat_quantized convert params num_layers output_file downcast) = RBool false ∧
  z_closed (outfile (snd (reformat_quantized convert params num_layers output_file downcast)))
    = true ∧
  ∀ l1 l2, paramlist num_layers = l1 ++ e :: l2 →
    forallb (entry_ok convert params downcast) l1 = true →
    reformat_quantized convert params num_layers output_file downcast =
      (RBool false,
       {| stdout := ["Parameters for " +:+ param e +:+ " not found, bailing out"];
          outfile := mkZip output_file
                       (flat_map (entry_files convert params downcast) l1) true |}).
Proof.
  intros He Hopt Hnone. split; [|split].
  - destruct (reformat_cases convert params downcast num_layers output_file)
      as [[Hall _]|(l1 & e' & l2 & line & _ & _ & _ & ->)]; [|reflexivity].
    rewrite (forallb_In_false _ _ e He) in Hall; [done|].
    unfold entry_ok. by rewrite Hnone.
  - apply reformat_closed.
  - intros l1 l2 El H1. apply (reformat_abort _ _ _ _ _ l1 l2 e); [done..|].
    intros w. by apply encode_entry_missing.
Qed.

Lemma missing_mandatory_aborts_witness :
  (In norm_entry (paramlist 0) ∧ optional norm_entry = false ∧
   store_embed_only !! param norm_entry = None) ∧
  (fst (reformat_quantized keep_bits store_embed_only 0 "out.zip" false) = RBool false ∧
   z_closed (outfile (snd (reformat_quantized keep_bits store_embed_only 0 "out.zip" false)))
     = true ∧
   ∀ l1 l2, paramlist 0 = l1 ++ norm_entry :: l2 →
     forallb (entry_ok keep_bits store_embed_only false) l1 = true →
     reformat_quantized keep_bits store_embed_only 0 "out.zip" false =
       (RBool false,
        {| stdout := ["Parameters for " +:+ param norm_entry +:+ " not found, bailing out"];
           outfile := mkZip "out.zip"
                        (flat_map (entry_files keep_bits store_embed_only false) l1) true |})).
Proof.
  assert (H1 : In norm_entry (paramlist 0)) by (right; left; reflexivity).
  assert (H2 : optional norm_entry = false) by reflexivity.
  assert (H3 : store_embed_only !! param norm_entry = None) by reflexivity.
  split; [by repeat split|].
  exact (missing_mandatory_aborts keep_bits store_embed_only 0 "out.zip" false norm_entry H1 H2 H3).
Defined.

(** C4, as the specification words it, fails on a checkpoint whose final norm
    is a float64 tensor: the call prints the fixed line [Unknown data type],
    which names neither the element type nor the archive name, and the
    archive was closed with the embedding table in it. *)
Lemma unknown_type_line_names_nothing :
  store_globals ones_f32 ones_f64 ones_f32 !! param norm_entry = Some ones_f64 ∧
  t_dtype ones_f64 = float64 ∧
  reformat_quantized keep_bits (store_globals ones_f32 ones_f64 ones_f32) 0 "out.zip" false =
    (RBool false,
     {| stdout := ["Unknown data type"];
        outfile := mkZip "out.zip" [("float32/embedding.embed", tobytes ones_f32)] true |}) ∧
  mentions "float64" "Unknown data type" = false ∧
  mentions (oparam norm_entry) "Unknown data type" = false ∧
  mentions "data" "Unknown data type" = true.
Proof.
  split; [reflexivity|]. split; [reflexivity|]. split; [vm_compute; reflexivity|].
  repeat split; reflexivity.
Qed.

(** C4 (amended): if the tensor of a tuple, after the downcast when it
    applies, has an element type other than float32, float16 and int32, and
    no earlier tuple stopped the conversion, the call prints the line
    [Unknown data type] and nothing else, gives [False], writes no file for
    this or any later tuple, and the [with] statement closes the archive with
    the files of the earlier tuples in it. *)
Theorem unknown_type_aborts (convert : dtype → dtype → Z → Z)
    (params : gmap string Tensor) (num_layers : Z) (output_file : string)
    (downcast : bool) (l1 l2 : list entry) (e : entry) (t : Tensor) :
  paramlist num_layers = l1 ++ e :: l2 →
  forallb (entry_ok convert params downcast) l1 = true →
  params !! param e = Some t →
  t_dtype (resolved convert downcast e t) ≠ float32 →
  t_dtype (resolved convert downcast e t) ≠ float16 →
  t_dtype (resolved convert downcast e t) ≠ int32 →
  reformat_quantized convert params num_layers output_file downcast =
    (RBool false,
     {| stdout := ["Unknown data type"];
        outfile := mkZip output_file
                     (flat_map (entry_files convert params downcast) l1) true |}).
Proof.
  intros El H1 Ht N32 N16 NI. apply (reformat_abort _ _ _ _ _ l1 l2 e); [done..|].
  intros w. apply (encode_entry_unknown _ _ _ e t); [done|].
  by apply type_prefix_None.
Qed.

Lemma unknown_type_aborts_witness :
  (paramlist 0 = [embed_entry] ++ norm_entry :: [head_entry] ∧
   forallb (entry_ok keep_bits (store_globals ones_f32 ones_f64 ones_f32) false) [embed_entry]
     = true ∧
   store_globals ones_f32 ones_f64 ones_f32 !! param norm_entry = Some ones_f64 ∧
   t_dtype (resolved keep_bits false norm_entry ones_f64) ≠ float32 ∧
   t_dtype (resolved keep_bits false norm_entry ones_f64) ≠ float16 ∧
   t_dtype (resolved keep_bits false norm_entry ones_f64) ≠ int32) ∧
  reformat_quantized keep_bits (store_globals ones_f32 ones_f64 ones_f32) 0 "out.zip" false =
    (RBool false,
     {| stdout := ["Unknown data type"];
        outfile := mkZip "out.zip"
                     (flat_map (entry_files keep_bits (store_globals ones_f32 ones_f64 ones_f32)
                                  false) [embed_entry]) true |}).
Proof.
  assert (H1 : paramlist 0 = [embed_entry] ++ norm_entry :: [head_entry]) by reflexivity.
  assert (H2 : forallb (entry_ok keep_bits (store_globals ones_f32 ones_f64 ones_f32) false)
                 [embed_entry] = true) by reflexivity.
  assert (H3 : store_globals ones_f32 ones_f64 ones_f32 !! param norm_entry = Some ones_f64)
    by reflexivity.
  assert (H4 : t_dtype (resolved keep_bits false norm_entry ones_f64) ≠ float32)
    by (simpl; discriminate).
  assert (H5 : t_dtype (resolved keep_bits false norm_entry ones_f64) ≠ float16)
    by (simpl; discriminate).
  assert (H6 : t_dtype (resolved keep_bits false norm_entry ones_f64) ≠ int32)
    by (simpl; discriminate).
  split; [by repeat split|].
  exact (unknown_type_aborts keep_bits _ 0 "out.zip" false _ _ _ _ H1 H2 H3 H4 H5 H6).
Defined.

(** * The encoder: optional tuples, downcast, end to end *)

(** C7: if the key of an optional tuple is absent from the checkpoint, the
    loop goes on with the next tuple and leaves the console and the archive
    as they were; when no other tuple stops the conversion the call prints
    nothing, ends with [None] and a closed archive, and the archive holds no
    file under that tuple's name in any of the three directories. *)
Theorem optional_missing_skipped (convert : dtype → dtype → Z → Z)
    (params : gmap string Tensor) (num_layers : Z) (output_file : string)
    (downcast : bool) (e : entry) :
  In e (paramlist num_layers) → optional e = true → params !! param e = None →
  (∀ e', In e' (paramlist num_layers) → e' ≠ e → entry_ok convert params downcast e' = true) →
  (∀ l w, encode_loop convert params downcast (e :: l) w =
          encode_loop convert params downcast l w) ∧
  reformat_quantized convert params num_layers output_file downcast =
    (RNone,
     {| stdout := [];
        outfile := mkZip output_file
                     (flat_map (entry_files convert params downcast) (paramlist num_layers))
                     true |}) ∧
  ∀ pfx data, In pfx type_prefixes →
    ¬ In (pfx +:+ oparam e, data)
        (z_filelist (outfile (snd (reformat_quantized convert params num_layers
                                     output_file downcast)))).
Proof.
  intros He Hopt Hnone Hothers. split; [|split].
  - intros l w. simpl. unfold encode_entry. by rewrite Hnone, Hopt.
  - apply reformat_ok. apply forallb_forall. intros e' He'.
    destruct (decide (e' = e)) as [->|Hne]; [|by apply Hothers].
    unfold entry_ok. by rewrite Hnone.
  - intros pfx data Hpfx Hin.
    apply (reformat_file_origin _ _ _ _ _ e) in Hin; [|done..].
    by rewrite (files_missing _ _ _ e Hnone) in Hin.
Qed.

Lemma optional_missing_skipped_witness :
  (In gate_bias_0 (paramlist 1) ∧ optional gate_bias_0 = true ∧
   store_one_layer !! param gate_bias_0 = None ∧
   (∀ e', In e' (paramlist 1) → e' ≠ gate_bias_0 →
          entry_ok keep_bits store_one_layer true e' = true)) ∧
  ((∀ l w, encode_loop keep_bits store_one_layer true (gate_bias_0 :: l) w =
           encode_loop keep_bits store_one_layer true l w) ∧
   reformat_quantized keep_bits store_one_layer 1 "out.zip" true =
     (RNone,
      {| stdout := [];
         outfile := mkZip "out.zip"
                      (flat_map (entry_files keep_bits store_one_layer true) (paramlist 1))
                      true |}) ∧
   ∀ pfx data, In pfx type_prefixes →
     ¬ In (pfx +:+ oparam gate_bias_0, data)
         (z_filelist (outfile (snd (reformat_quantized keep_bits store_one_layer 1
                                      "out.zip" true))))).
Proof.
  assert (H1 : In gate_bias_0 (paramlist 1)).
  { apply (nth_error_In _ 14). reflexivity. }
  assert (H2 : optional gate_bias_0 = true) by reflexivity.
  assert (H3 : store_one_layer !! param gate_bias_0 = None) by reflexivity.
  assert (H4 : ∀ e', In e' (paramlist 1) → e' ≠ gate_bias_0 →
                     entry_ok keep_bits store_one_layer true e' = true).
  { intros e' He' _. revert e' He'. apply forallb_forall. vm_compute. reflexivity. }
  split; [by repeat split|].
  exact (optional_missing_skipped keep_bits store_one_layer 1 "out.zip" true gate_bias_0
           H1 H2 H3 H4).
Defined.

(** C6: on a checkpoint whose tensors are all float32, a call with the
    downcast switched on stores every file of a castable tuple in [float16/]
    with half as many bytes as the tensor has, and every file of another
    tuple in [float32/] with the bytes of the tensor as they are; when no
    mandatory key is missing the call ends with [None] and every tuple whose
    key is present has its file in the archive. *)
Theorem all_float32_downcast (convert : dtype → dtype → Z → Z)
    (params : gmap string Tensor) (num_layers : Z) (output_file : string) :
  map_Forall (fun _ t => t_dtype t = float32) params →
  (∀ name data,
     In (name, data)
        (z_filelist (outfile (snd (reformat_quantized convert params num_layers
                                     output_file true)))) →
     ∃ e t, In e (paramlist num_layers) ∧ params !! param e = Some t ∧
       if castable e
       then name = "float16/" +:+ oparam e ∧ (2 * length data = length (tobytes t))%nat
       else name = "float32/" +:+ oparam e ∧ data = tobytes t) ∧
  ((∀ e, In e (paramlist num_layers) → optional e = false → is_Some (params !! param e)) →
   fst (reformat_quantized convert params num_layers output_file true) = RNone ∧
   ∀ e t, In e (paramlist num_layers) → params !! param e = Some t →
     In (if castable e
         then ("float16/" +:+ oparam e, tobytes (to convert float16 t))
         else ("float32/" +:+ oparam e, tobytes t))
        (z_filelist (outfile (snd (reformat_quantized convert params num_layers
                                     output_file true))))).
Proof.
  intros Hf32.
  assert (Hfiles : ∀ e t, params !! param e = Some t →
            entry_files convert params true e =
            [if castable e
             then ("float16/" +:+ oparam e, tobytes (to convert float16 t))
             else ("float32/" +:+ oparam e, tobytes t)]).
  { intros e t Ht. unfold entry_files, resolved. rewrite Ht. simpl.
    destruct (castable e); [by rewrite to_dtype|]. by rewrite (Hf32 _ _ Ht). }
  split.
  - intros name data Hin.
    apply reformat_files_sub, in_flat_map in Hin as (e & He & Hin).
    destruct (params !! param e) as [t|] eqn:Ht;
      [|by rewrite (files_missing _ _ _ e Ht) in Hin].
    exists e, t. split; [done|]. split; [done|].
    rewrite (Hfiles e t Ht) in Hin. destruct Hin as [E|[]].
    destruct (castable e); simplify_eq; split; try done.
    rewrite length_tobytes_to_float16, (length_tobytes_float32 t (Hf32 _ _ Ht)). lia.
  - intros Hmand.
    assert (Hall : forallb (entry_ok convert params true) (paramlist num_layers) = true).
    { apply forallb_forall. intros e He. unfold entry_ok, resolved.
      destruct (params !! param e) as [t|] eqn:Ht.
      - simpl. destruct (castable e); [by rewrite to_dtype|]. by rewrite (Hf32 _ _ Ht).
      - destruct (optional e) eqn:Hopt; [done|].
        destruct (Hmand e He Hopt) as [t Ht']. congruence. }
    rewrite (reformat_ok _ _ _ _ _ Hall). split; [done|]. simpl.
    intros e t He Ht. apply in_flat_map. exists e. split; [done|].
    rewrite (Hfiles e t Ht). by left.
Qed.

Lemma all_float32_downcast_witness :
  map_Forall (fun _ t => t_dtype t = float32) store_one_layer ∧
  (∀ e, In e (paramlist 1) → optional e = false → is_Some (store_one_layer !! param e)) ∧
  fst (reformat_quantized keep_bits store_one_layer 1 "out.zip" true) = RNone ∧
  In ("float16/embedding.embed", tobytes (to keep_bits float16 ones_f32))
     (z_filelist (outfile (snd (reformat_quantized keep_bits store_one_layer 1
                                  "out.zip" true)))).
Proof.
  assert (H1 : map_Forall (fun _ t => t_dtype t = float32) store_one_layer).
  { intros k t Ht. apply elem_of_list_to_map_2, list_elem_of_In, in_map_iff in Ht.
    destruct Ht as (e & E & _). by simplify_eq. }
  assert (H2 : ∀ e, In e (paramlist 1) → optional e = false →
                    is_Some (store_one_layer !! param e)).
  { intros e He Hopt.
    assert (Hb : forallb (fun e => optional e || bool_decide (is_Some (store_one_layer !! param e)))
                   (paramlist 1) = true) by (vm_compute; reflexivity).
    rewrite forallb_forall in Hb. specialize (Hb e He). rewrite Hopt in Hb.
    rewrite orb_false_l in Hb. by apply bool_decide_eq_true in Hb. }
  destruct (all_float32_downcast keep_bits store_one_layer 1 "out.zip" H1) as [_ Hb].
  destruct (Hb H2) as [Hret Hin].
  split; [exact H1|]. split; [exact H2|]. split; [exact Hret|].
  apply (Hin embed_entry ones_f32); [by left|reflexivity].
Defined.

Lemma lookup_store_globals (t1 t2 t3 : Tensor) :
  store_globals t1 t2 t3 !! param embed_entry = Some t1 ∧
  store_globals t1 t2 t3 !! param norm_entry = Some t2 ∧
  store_globals t1 t2 t3 !! param head_entry = Some t3.
Proof.
  unfold store_globals. simpl. split; [|split].
  - by rewrite lookup_insert_eq.
  - rewrite lookup_insert_ne by done. by rewrite lookup_insert_eq.
  - rewrite !lookup_insert_ne by done. by rewrite lookup_insert_eq.
Qed.

(** C8: for the checkpoint that holds exactly the float32 tensors
    [model.embed_tokens.weight], [model.norm.weight] and [lm_head.weight], a
    call without layers and without downcast ends with [None] and a closed
    archive of exactly three files, [float32/embedding.embed],
    [float32/modelnorm.weights] and [float32/tokenscoring.embed], in this
    order, each four bytes long for every element of its tensor. *)
Theorem three_globals_end_to_end (convert : dtype → dtype → Z → Z)
    (t1 t2 t3 : Tensor) (output_file : string) :
  t_dtype t1 = float32 → t_dtype t2 = float32 → t_dtype t3 = float32 →
  dom (store_globals t1 t2 t3) =
    ({[ "model.embed_tokens.weight"; "model.norm.weight"; "lm_head.weight" ]} : gset string) ∧
  reformat_quantized convert (store_globals t1 t2 t3) 0 output_file false =
    (RNone,
     {| stdout := [];
        outfile := mkZip output_file
                     [ ("float32/embedding.embed", tobytes t1);
                       ("float32/modelnorm.weights", tobytes t2);
                       ("float32/tokenscoring.embed", tobytes t3) ] true |}) ∧
  length (tobytes t1) = (4 * numel t1)%nat ∧
  length (tobytes t2) = (4 * numel t2)%nat ∧
  length (tobytes t3) = (4 * numel t3)%nat.
Proof.
  intros E1 E2 E3.
  destruct (lookup_store_globals t1 t2 t3) as (L1 & L2 & L3).
  split; [|split].
  - unfold store_globals. rewrite !dom_insert_L, dom_empty_L. set_solver.
  - assert (F : ∀ e t, store_globals t1 t2 t3 !! param e = Some t → t_dtype t = float32 →
                entry_files convert (store_globals t1 t2 t3) false e =
                [("float32/" +:+ oparam e, tobytes t)]).
    { intros e t Lt Et. unfold entry_files, resolved. rewrite Lt. simpl. by rewrite Et. }
    assert (Hall : forallb (entry_ok convert (store_globals t1 t2 t3) false) (paramlist 0) = true).
    { change (paramlist 0) with [embed_entry; norm_entry; head_entry]. simpl.
      unfold entry_ok, resolved. rewrite L1, L2, L3. simpl. by rewrite E1, E2, E3. }
    rewrite (reformat_ok _ _ _ _ _ Hall).
    change (paramlist 0) with [embed_entry; norm_entry; head_entry]. simpl.
    by rewrite (F _ _ L1 E1), (F _ _ L2 E2), (F _ _ L3 E3).
  - by rewrite !length_tobytes_float32.
Qed.

Lemma three_globals_end_to_end_witness :
  (t_dtype ones_f32 = float32 ∧ t_dtype ones_f32 = float32 ∧ t_dtype ones_f32 = float32) ∧
  (dom (store_globals ones_f32 ones_f32 ones_f32) =
     ({[ "model.embed_tokens.weight"; "model.norm.weight"; "lm_head.weight" ]} : gset string) ∧
   reformat_quantized keep_bits (store_globals ones_f32 ones_f32 ones_f32) 0 "out.zip" false =
     (RNone,
      {| stdout := [];
         outfile := mkZip "out.zip"
                      [ ("float32/embedding.embed", tobytes ones_f32);
                        ("float32/modelnorm.weights", tobytes ones_f32);
                        ("float32/tokenscoring.embed", tobytes ones_f32) ] true |}) ∧
   length (tobytes ones_f32) = (4 * numel ones_f32)%nat ∧
   length (tobytes ones_f32) = (4 * numel ones_f32)%nat ∧
   length (tobytes ones_f32) = (4 * numel ones_f32)%nat).
Proof.
  split; [repeat split; reflexivity|].
  apply (three_globals_end_to_end keep_bits ones_f32 ones_f32 ones_f32 "out.zip");
    reflexivity.
Defined.

(** C10: with the downcast switched on, the tensor of a castable tuple is
    converted to float16 whatever its element type is, int32 included: the
    loop writes the converted tensor under [float16/] and goes on with the
    next tuple; once the tuple is reached the file is in the archive, and the
    archive never holds a file under that tuple's name in [int32/]. *)
Theorem downcast_any_dtype (convert : dtype → dtype → Z → Z)
    (params : gmap string Tensor) (num_layers : Z) (output_file : string)
    (e : entry) (t : Tensor) :
  In e (paramlist num_layers) → castable e = true → params !! param e = Some t →
  t_dtype (to convert float16 t) = float16 ∧
  (∀ l w, encode_loop convert params true (e :: l) w =
          encode_loop convert params true l
            (write ("float16/" +:+ oparam e) (tobytes (to convert float16 t)) w)) ∧
  (∀ l1 l2, paramlist num_layers = l1 ++ e :: l2 →
     forallb (entry_ok convert params true) l1 = true →
     In ("float16/" +:+ oparam e, tobytes (to convert float16 t))
        (z_filelist (outfile (snd (reformat_quantized convert params num_layers
                                     output_file true))))) ∧
  ∀ data,
    ¬ In ("int32/" +:+ oparam e, data)
        (z_filelist (outfile (snd (reformat_quantized convert params num_layers
                                     output_file true)))).
Proof.
  intros He Hcast Ht.
  assert (Hres : resolved convert true e t = to convert float16 t).
  { unfold resolved. by rewrite Hcast. }
  assert (Hfiles : entry_files convert params true e =
                   [("float16/" +:+ oparam e, tobytes (to convert float16 t))]).
  { unfold entry_files. by rewrite Ht, Hres, to_dtype. }
  assert (Hok : entry_ok convert params true e = true).
  { unfold entry_ok. by rewrite Ht, Hres, to_dtype. }
  split; [apply to_dtype|]. split; [|split].
  - intros l w. simpl.
    by rewrite (type_prefix_body convert params true e t w Ht), Hres, to_dtype.
  - intros l1 l2 El H1. apply (reformat_reached _ _ _ _ _ l1 l2 e); [done..|].
    rewrite Hfiles. by left.
  - intros data Hin.
    apply (reformat_file_origin _ _ _ _ _ e "int32/") in Hin; [|done|simpl; tauto].
    rewrite Hfiles in Hin. destruct Hin as [E|[]].
    injection E as E _. autorewrite with strs in E. discriminate.
Qed.

Lemma downcast_any_dtype_witness :
  (In embed_entry (paramlist 0) ∧ castable embed_entry = true ∧
   store_globals ones_i32 ones_f32 ones_f32 !! param embed_entry = Some ones_i32 ∧
   t_dtype ones_i32 = int32) ∧
  reformat_quantized keep_bits (store_globals ones_i32 ones_f32 ones_f32) 0 "out.zip" true =
    (RNone,
     {| stdout := [];
        outfile := mkZip "out.zip"
                     [ ("float16/embedding.embed", tobytes (to keep_bits float16 ones_i32));
                       ("float16/modelnorm.weights", tobytes (to keep_bits float16 ones_f32));
                       ("float16/tokenscoring.embed", tobytes (to keep_bits float16 ones_f32)) ]
                     true |}) ∧
  In ("float16/" +:+ oparam embed_entry, tobytes (to keep_bits float16 ones_i32))
     (z_filelist (outfile (snd (reformat_quantized keep_bits
                                  (store_globals ones_i32 ones_f32 ones_f32) 0 "out.zip" true)))) ∧
  ∀ data,
    ¬ In ("int32/" +:+ oparam embed_entry, data)
        (z_filelist (outfile (snd (reformat_quantized keep_bits
                                     (store_globals ones_i32 ones_f32 ones_f32) 0 "out.zip" true)))).
Proof.
  assert (H1 : In embed_entry (paramlist 0)) by (left; reflexivity).
  assert (H2 : castable embed_entry = true) by reflexivity.
  assert (H3 : store_globals ones_i32 ones_f32 ones_f32 !! param embed_entry = Some ones_i32)
    by reflexivity.
  destruct (downcast_any_dtype keep_bits (store_globals ones_i32 ones_f32 ones_f32) 0 "out.zip"
              embed_entry ones_i32 H1 H2 H3) as (_ & _ & Hin & Hnot).
  split; [by repeat split|]. split; [vm_compute; reflexivity|]. split; [|exact Hnot].
  apply (Hin [] [norm_entry; head_entry]); reflexivity.
Defined.

(** * More about the name map *)

Lemma in_range (n i : Z) : In i (range n) ↔ 0 ≤ i < n.
Proof.
  unfold range. rewrite in_map_iff. split.
  - intros (k & <- & Hk). apply in_seq in Hk. lia.
  - intros Hi. exists (Z.to_nat i). split; [lia|]. apply in_seq. lia.
Qed.

Lemma range_nonpos (n : Z) : n ≤ 0 → range n = [].
Proof. intros Hn. unfold range. by replace (Z.to_nat n) with 0%nat by lia. Qed.

Lemma range_succ (n : Z) : 0 ≤ n → range (n + 1) = range n ++ [n].
Proof.
  intros Hn. unfold range. replace (Z.to_nat (n + 1)) with (S (Z.to_nat n)) by lia.
  rewrite seq_S, map_app. simpl. by rewrite Z2Nat.id.
Qed.

(** The layers below [m] come first in the list of the layers below [n]. *)
Lemma range_split (m n : Z) : 0 ≤ m < n → ∃ rest, range n = range m ++ m :: rest.
Proof.
  intros Hmn. unfold range.
  replace (Z.to_nat n) with (Z.to_nat m + S (Z.to_nat (n - m - 1)))%nat by lia.
  rewrite seq_app, map_app. simpl. rewrite Z2Nat.id by lia. eauto.
Qed.

Lemma filter_flat_layers (f : entry → bool) (k : nat) (layers : list Z) :
  (∀ i, length (List.filter f (layer_entries i)) = k) →
  length (List.filter f (flat_map layer_entries layers)) = (k * length layers)%nat.
Proof.
  intros Hk. induction layers as [|i layers IH]; [simpl; lia|].
  change (flat_map layer_entries (i :: layers))
    with (layer_entries i ++ flat_map layer_entries layers).
  rewrite List.filter_app, length_app, IH, Hk. simpl. lia.
Qed.

(** X1: the keys the name map reads from the checkpoint are pairwise
    distinct, whatever the layer count. *)
Theorem source_keys_distinct (num_layers : Z) : NoDup (map param (paramlist num_layers)).
Proof. apply NoDup_param. Qed.

(** X2: the name map holds the three global tuples and, for each layer
    [0 <= i < num_layers] and no other, the 26 tuples of that layer. *)
Theorem paramlist_membership (num_layers : Z) (e : entry) :
  In e (paramlist num_layers) ↔
  e = embed_entry ∨ e = norm_entry ∨ e = head_entry ∨
  ∃ i, 0 ≤ i < num_layers ∧ In e (layer_entries i).
Proof.
  rewrite paramlist_eq. simpl. rewrite in_app_iff, in_flat_map. simpl.
  setoid_rewrite in_range. split.
  - intros [<-|[(i & Hi & He)|[<-|[<-|[]]]]]; eauto 6.
  - intros [->|[->|[->|(i & Hi & He)]]]; eauto 6.
Qed.

(** X3: a layer count of zero or below gives the three global tuples and
    nothing else. *)
Theorem paramlist_nonpositive (num_layers : Z) :
  num_layers ≤ 0 → paramlist num_layers = [embed_entry; norm_entry; head_entry].
Proof. intros Hn. rewrite paramlist_eq, range_nonpos by done. reflexivity. Qed.

Lemma paramlist_nonpositive_witness :
  -3 ≤ 0 ∧ paramlist (-3) = [embed_entry; norm_entry; head_entry].
Proof. split; [lia | apply (paramlist_nonpositive (-3)); lia]. Defined.

(** X4: for [num_layers >= 0] the name map has [4 * num_layers] optional
    tuples and [3 + 2 * num_layers] castable ones, and no tuple is both. *)
Theorem paramlist_flag_counts (num_layers : Z) :
  0 ≤ num_layers →
  Z.of_nat (length (List.filter optional (paramlist num_layers))) = 4 * num_layers ∧
  Z.of_nat (length (List.filter castable (paramlist num_layers))) = 3 + 2 * num_layers ∧
  Forall (fun e => castable e = true → optional e = false) (paramlist num_layers).
Proof.
  intros Hn. rewrite paramlist_eq. split; [|split].
  - simpl. rewrite List.filter_app, length_app.
    rewrite (filter_flat_layers optional 4) by reflexivity.
    rewrite length_range. simpl. lia.
  - simpl. rewrite List.filter_app, length_app.
    rewrite (filter_flat_layers castable 2) by reflexivity.
    rewrite length_range. simpl. lia.
  - apply Forall_forall. intros e He. apply list_elem_of_In in He.
    rewrite <- paramlist_eq in He. apply paramlist_membership in He.
    destruct He as [->|[->|[->|(i & _ & He)]]]; try done.
    unfold layer_entries, attn_entries, mlp_entries, norm_entries in He. simpl in He.
    intuition (subst; simpl in *; congruence).
Qed.

Lemma paramlist_flag_counts_witness :
  0 ≤ 2 ∧
  (Z.of_nat (length (List.filter optional (paramlist 2))) = 4 * 2 ∧
   Z.of_nat (length (List.filter castable (paramlist 2))) = 3 + 2 * 2 ∧
   Forall (fun e => castable e = true → optional e = false) (paramlist 2)).
Proof. split; [lia | apply (paramlist_flag_counts 2); lia]. Defined.

Lemma drop_last_two {A : Type} (x y z : A) (l : list A) :
  firstn (length (x :: l ++ [y; z]) - 2) (x :: l ++ [y; z]) = x :: l.
Proof.
  replace (length (x :: l ++ [y; z]) - 2)%nat with (S (length l)).
  - simpl. by rewrite take_app_length.
  - simpl. rewrite length_app. simpl. lia.
Qed.

(** X5: one more layer leaves the tuples of the earlier layers where they
    are: the name map for [num_layers + 1] layers is the one for
    [num_layers] layers without its last two tuples, then the 26 tuples of
    layer [num_layers], then the final norm and the output head. *)
Theorem paramlist_one_more_layer (num_layers : Z) :
  0 ≤ num_layers →
  paramlist (num_layers + 1) =
    firstn (length (paramlist num_layers) - 2) (paramlist num_layers)
      ++ layer_entries num_layers ++ [norm_entry; head_entry].
Proof.
  intros Hn. rewrite !paramlist_eq, range_succ by done.
  rewrite drop_last_two, flat_map_app.
  change (flat_map layer_entries [num_layers]) with (layer_entries num_layers ++ []).
  rewrite app_nil_r, <- app_assoc. reflexivity.
Qed.

Lemma paramlist_one_more_layer_witness :
  0 ≤ 1 ∧
  paramlist (1 + 1) =
    firstn (length (paramlist 1) - 2) (paramlist 1)
      ++ layer_entries 1 ++ [norm_entry; head_entry].
Proof. split; [lia | apply (paramlist_one_more_layer 1); lia]. Defined.

(** * More about the encoder *)

Section CallFacts.

Variable convert : dtype → dtype → Z → Z.
Variable params : gmap string Tensor.
Variable downcast : bool.
Variable num_layers : Z.
Variable output_file : string.

Abbreviation ok := (entry_ok convert params downcast).
Abbreviation files := (entry_files convert params downcast).
Abbreviation run := (reformat_quantized convert params num_layers output_file downcast).

Lemma entry_ok_spec (e : entry) :
  ok e = true ↔
  match params !! param e with
  | None => optional e = true
  | Some t =>
      t_dtype (resolved convert downcast e t) = float32 ∨
      t_dtype (resolved convert downcast e t) = float16 ∨
      t_dtype (resolved convert downcast e t) = int32
  end.
Proof.
  unfold entry_ok. destruct (params !! param e) as [t|]; [|done].
  destruct (t_dtype (resolved convert downcast e t)); simpl; split; intros H;
    try done; try tauto; destruct H as [H|[H|H]]; discriminate.
Qed.

Lemma entry_not_ok (e : entry) :
  ok e = false →
  (params !! param e = None ∧ optional e = false) ∨
  (∃ t, params !! param e = Some t ∧
        type_prefix (t_dtype (resolved convert downcast e t)) = None).
Proof.
  unfold entry_ok. destruct (params !! param e) as [t|].
  - destruct (type_prefix _) eqn:Hp; [discriminate|]. intros _. right. eauto.
  - intros Hopt. by left.
Qed.

(** The files of the archive are those of an initial part of the name map. *)
Lemma reformat_files_initial :
  ∃ l1 l2, paramlist num_layers = l1 ++ l2 ∧
           z_filelist (outfile (snd run)) = flat_map files l1.
Proof.
  destruct (reformat_cases convert params downcast num_layers output_file)
    as [[_ ->]|(l1 & e & l2 & line & El & _ & _ & ->)]; simpl.
  - exists (paramlist num_layers), []. by rewrite app_nil_r.
  - by exists l1, (e :: l2).
Qed.

(** How a call that stops early stops. *)
Lemma reformat_abort_cases :
  forallb ok (paramlist num_layers) = false →
  ∃ l1 e l2, paramlist num_layers = l1 ++ e :: l2 ∧ forallb ok l1 = true ∧
    ((params !! param e = None ∧ optional e = false ∧
      run = (RBool false,
             {| stdout := ["Parameters for " +:+ param e +:+ " not found, bailing out"];
                outfile := mkZip output_file (flat_map files l1) true |})) ∨
     (∃ t, params !! param e = Some t ∧
           type_prefix (t_dtype (resolved convert downcast e t)) = None ∧
           run = (RBool false,
                  {| stdout := ["Unknown data type"];
                     outfile := mkZip output_file (flat_map files l1) true |}))).
Proof.
  intros Hall. destruct (first_failure _ _ _ _ Hall) as (l1 & e & l2 & El & H1 & He).
  exists l1, e, l2. split; [done|]. split; [done|].
  destruct (entry_not_ok e He) as [[Hnone Hopt]|(t & Ht & Hp)].
  - left. repeat split; try done.
    apply (reformat_abort _ _ _ _ _ l1 l2 e); [done..|].
    intros w. by apply encode_entry_missing.
  - right. exists t. repeat split; try done.
    apply (reformat_abort _ _ _ _ _ l1 l2 e); [done..|].
    intros w. by apply (encode_entry_unknown _ _ _ e t).
Qed.

Lemma length_entry_files (e : entry) : (length (files e) ≤ 1)%nat.
Proof.
  unfold entry_files. destruct (params !! param e); simpl; [|lia].
  destruct (type_prefix _); simpl; lia.
Qed.

Lemma length_flat_files (l : list entry) : (length (flat_map files l) ≤ length l)%nat.
Proof.
  induction l as [|e l IH]; simpl; [lia|].
  rewrite length_app. pose proof (length_entry_files e). lia.
Qed.

Lemma NoDup_file_names (l : list entry) :
  NoDup (map oparam l) → NoDup (map fst (flat_map files l)).
Proof.
  induction l as [|e l IH]; simpl; [constructor|].
  intros [He ND]%NoDup_cons. rewrite map_app. apply NoDup_app.
  split; [|split; [|by apply IH]].
  - pose proof (length_entry_files e) as Hlen.
    destruct (files e) as [|x [|y fs]]; simpl in *; try lia.
    + constructor.
    + apply NoDup_singleton.
  - intros name Hname Hname'. apply list_elem_of_In in Hname, Hname'.
    apply in_map_iff in Hname as ([name1 d1] & <- & H1).
    apply in_map_iff in Hname' as ([name2 d2] & E & H2). simpl in E. subst name2.
    apply in_flat_map in H2 as (e' & He' & H2).
    destruct (in_entry_files _ _ _ _ _ _ H1) as (t1 & p1 & _ & Hp1 & -> & _).
    destruct (in_entry_files _ _ _ _ _ _ H2) as (t2 & p2 & _ & Hp2 & E & _).
    apply type_prefix_name_inj in E as [_ E];
      [|by apply (type_prefix_In _ _ Hp1)|by apply (type_prefix_In _ _ Hp2)].
    apply He, list_elem_of_In. rewrite E. by apply in_map.
Qed.

End CallFacts.

(** X7: the call returns [None] exactly when every tuple of the name map
    either finds its key in the checkpoint with a tensor that is float32,
    float16 or int32 (after the downcast when it applies), or misses its key
    and is optional. *)
Theorem call_succeeds_iff (convert : dtype → dtype → Z → Z)
    (params : gmap string Tensor) (num_layers : Z) (output_file : string)
    (downcast : bool) :
  fst (reformat_quantized convert params num_layers output_file downcast) = RNone ↔
  ∀ e, In e (paramlist num_layers) →
    match params !! param e with
    | None => optional e = true
    | Some t =>
        t_dtype (resolved convert downcast e t) = float32 ∨
        t_dtype (resolved convert downcast e t) = float16 ∨
        t_dtype (resolved convert downcast e t) = int32
    end.
Proof.
  split.
  - intros Hret e He. apply (entry_ok_spec convert params downcast).
    destruct (reformat_cases convert params downcast num_layers output_file)
      as [[Hall _]|(l1 & e' & l2 & line & _ & _ & _ & Hrun)].
    + rewrite forallb_forall in Hall. by apply Hall.
    + rewrite Hrun in Hret. discriminate.
  - intros Hall. rewrite reformat_ok; [done|].
    apply forallb_forall. intros e He.
    apply (entry_ok_spec convert params downcast). by apply Hall.
Qed.

(** X8: no two files of the archive have the same name. *)
Theorem archive_names_distinct (convert : dtype → dtype → Z → Z)
    (params : gmap string Tensor) (num_layers : Z) (output_file : string)
    (downcast : bool) :
  NoDup (map fst (z_filelist (outfile (snd (reformat_quantized convert params num_layers
                                              output_file downcast))))).
Proof.
  destruct (reformat_files_initial convert params downcast num_layers output_file)
    as (l1 & l2 & El & ->).
  apply NoDup_file_names. pose proof (NoDup_oparam num_layers) as ND.
  rewrite El, map_app in ND. by apply NoDup_app in ND as [ND _].
Qed.

(** X9: what the archive holds is an initial part of what a call that runs
    through all tuples would write, in the same order, so it never has more
    files than the name map has tuples. *)
Theorem archive_is_initial_part (convert : dtype → dtype → Z → Z)
    (params : gmap string Tensor) (num_layers : Z) (output_file : string)
    (downcast : bool) :
  (∃ rest, flat_map (entry_files convert params downcast) (paramlist num_layers) =
           z_filelist (outfile (snd (reformat_quantized convert params num_layers
                                       output_file downcast))) ++ rest) ∧
  (length (z_filelist (outfile (snd (reformat_quantized convert params num_layers
                                       output_file downcast))))
   ≤ length (paramlist num_layers))%nat.
Proof.
  destruct (reformat_files_initial convert params downcast num_layers output_file)
    as (l1 & l2 & El & ->). split.
  - exists (flat_map (entry_files convert params downcast) l2). by rewrite El, flat_map_app.
  - rewrite El, length_app. pose proof (length_flat_files convert params downcast l1). lia.
Qed.

Lemma encode_loop_ext (convert : dtype → dtype → Z → Z) (params params' : gmap string Tensor)
    (downcast : bool) (l : list entry) (w : world) :
  (∀ e, In e l → params !! param e = params' !! param e) →
  encode_loop convert params downcast l w = encode_loop convert params' downcast l w.
Proof.
  revert w. induction l as [|e l IH]; intros w Hl; simpl; [done|].
  assert (Hbody : encode_entry convert params downcast e w =
                  encode_entry convert params' downcast e w).
  { unfold encode_entry. rewrite (Hl e) by (by left). done. }
  rewrite Hbody. destruct (encode_entry convert params' downcast e w); [|done].
  apply IH. intros e' He'. apply Hl. by right.
Qed.

(** X10: the call looks at the checkpoint only through the keys of the name
    map: two checkpoints that agree on these keys give the same return
    value, the same console output and the same archive, whatever other
    tensors they hold. *)
Theorem unnamed_keys_ignored (convert : dtype → dtype → Z → Z)
    (params params' : gmap string Tensor) (num_layers : Z) (output_file : string)
    (downcast : bool) :
  (∀ e, In e (paramlist num_layers) → params !! param e = params' !! param e) →
  reformat_quantized convert params num_layers output_file downcast =
  reformat_quantized convert params' num_layers output_file downcast.
Proof.
  intros Hagree. unfold reformat_quantized.
  by rewrite (encode_loop_ext convert params params' downcast _ _ Hagree).
Qed.

Lemma unnamed_keys_ignored_witness :
  (∀ e, In e (paramlist 1) → store_with_attn_bias !! param e = store_one_layer !! param e) ∧
  store_with_attn_bias !! "model.layers.0.self_attn.q_proj.bias" = Some ones_f64 ∧
  store_one_layer !! "model.layers.0.self_attn.q_proj.bias" = None ∧
  reformat_quantized keep_bits store_with_attn_bias 1 "out.zip" true =
  reformat_quantized keep_bits store_one_layer 1 "out.zip" true.
Proof.
  assert (H : ∀ e, In e (paramlist 1) →
                store_with_attn_bias !! param e = store_one_layer !! param e).
  { intros e He. unfold store_with_attn_bias. apply lookup_insert_ne.
    assert (Hb : forallb (fun e => bool_decide
                   ("model.layers.0.self_attn.q_proj.bias" ≠ param e)) (paramlist 1) = true)
      by (vm_compute; reflexivity).
    rewrite forallb_forall in Hb. specialize (Hb e He).
    by apply bool_decide_eq_true in Hb. }
  split; [exact H|]. split; [reflexivity|]. split; [reflexivity|].
  exact (unnamed_keys_ignored keep_bits store_with_attn_bias store_one_layer 1 "out.zip" true H).
Defined.

Lemma numel_resolved (convert : dtype → dtype → Z → Z) (downcast : bool) (e : entry)
    (t : Tensor) :
  numel (resolved convert downcast e t) = numel t.
Proof. unfold resolved. destruct (downcast && castable e); [apply numel_to|done]. Qed.

(** X11: without the downcast no tensor is converted: every file of the
    archive holds the bytes of the checkpoint tensor of one tuple of the name
    map, in the directory of that tensor's own element type. *)
Theorem no_downcast_keeps_tensors (convert : dtype → dtype → Z → Z)
    (params : gmap string Tensor) (num_layers : Z) (output_file : string)
    (name : string) (data : list byte) :
  In (name, data)
     (z_filelist (outfile (snd (reformat_quantized convert params num_layers
                                  output_file false)))) →
  ∃ e t p, In e (paramlist num_layers) ∧ params !! param e = Some t ∧
           type_prefix (t_dtype t) = Some p ∧
           name = p +:+ oparam e ∧ data = tobytes t.
Proof.
  intros Hin. apply reformat_files_sub, in_flat_map in Hin as (e & He & Hin).
  destruct (in_entry_files _ _ _ _ _ _ Hin) as (t & p & Ht & Hp & -> & ->).
  by exists e, t, p.
Qed.

Lemma no_downcast_keeps_tensors_witness :
  In ("float32/modelnorm.weights", tobytes ones_f32)
     (z_filelist (outfile (snd (reformat_quantized keep_bits
                                  (store_globals ones_i32 ones_f32 ones_f32) 0
                                  "out.zip" false)))) ∧
  ∃ e t p, In e (paramlist 0) ∧
           store_globals ones_i32 ones_f32 ones_f32 !! param e = Some t ∧
           type_prefix (t_dtype t) = Some p ∧
           "float32/modelnorm.weights" = p +:+ oparam e ∧ tobytes ones_f32 = tobytes t.
Proof.
  assert (H : In ("float32/modelnorm.weights", tobytes ones_f32)
     (z_filelist (outfile (snd (reformat_quantized keep_bits
                                  (store_globals ones_i32 ones_f32 ones_f32) 0
                                  "out.zip" false))))).
  { right. left. reflexivity. }
  split; [exact H|].
  exact (no_downcast_keeps_tensors keep_bits _ 0 "out.zip" _ _ H).
Defined.

(** X12: with the downcast switched on, a call that prints
    [Unknown data type] was stopped by a tuple that is not castable: all the
    tuples before it in the name map went through, its key is in the
    checkpoint with a tensor that is neither float32 nor float16 nor int32,
    the call returns [False], and the closed archive holds the files of the
    tuples before it and no others.  The tensor of a castable tuple is never
    what stops the call for its type. *)
Theorem downcast_rejects_only_noncastable (convert : dtype → dtype → Z → Z)
    (params : gmap string Tensor) (num_layers : Z) (output_file : string) :
  stdout (snd (reformat_quantized convert params num_layers output_file true))
    = ["Unknown data type"] →
  ∃ l1 e l2 t,
    paramlist num_layers = l1 ++ e :: l2 ∧
    forallb (entry_ok convert params true) l1 = true ∧
    castable e = false ∧
    params !! param e = Some t ∧
    t_dtype t ≠ float32 ∧ t_dtype t ≠ float16 ∧ t_dtype t ≠ int32 ∧
    reformat_quantized convert params num_layers output_file true =
      (RBool false,
       {| stdout := ["Unknown data type"];
          outfile := mkZip output_file
                       (flat_map (entry_files convert params true) l1) true |}).
Proof.
  intros Hout.
  destruct (forallb (entry_ok convert params true) (paramlist num_layers)) eqn:Hall.
  { rewrite (reformat_ok _ _ _ _ _ Hall) in Hout. discriminate. }
  destruct (reformat_abort_cases _ _ _ _ output_file Hall)
    as (l1 & e & l2 & El & H1 & [(_ & _ & Hrun)|(t & Ht & Hp & Hrun)]).
  - rewrite Hrun in Hout. simpl in Hout. injection Hout as Hout.
    autorewrite with strs in Hout. discriminate.
  - exists l1, e, l2, t. split; [done|]. split; [done|].
    unfold resolved in Hp. destruct (castable e); simpl in Hp.
    + by rewrite to_dtype in Hp.
    + split; [done|]. split; [done|].
      split; [|split; [|split]]; try done; destruct (t_dtype t); simpl in Hp; done.
Qed.

Lemma downcast_rejects_only_noncastable_witness :
  stdout (snd (reformat_quantized keep_bits store_f64_query 1 "out.zip" true))
    = ["Unknown data type"] ∧
  ∃ l1 e l2 t,
    paramlist 1 = l1 ++ e :: l2 ∧
    forallb (entry_ok keep_bits store_f64_query true) l1 = true ∧
    castable e = false ∧
    store_f64_query !! param e = Some t ∧
    t_dtype t ≠ float32 ∧ t_dtype t ≠ float16 ∧ t_dtype t ≠ int32 ∧
    reformat_quantized keep_bits store_f64_query 1 "out.zip" true =
      (RBool false,
       {| stdout := ["Unknown data type"];
          outfile := mkZip "out.zip"
                       (flat_map (entry_files keep_bits store_f64_query true) l1) true |}).
Proof.
  assert (H : stdout (snd (reformat_quantized keep_bits store_f64_query 1 "out.zip" true))
              = ["Unknown data type"]) by (vm_compute; reflexivity).
  split; [exact H|].
  exact (downcast_rejects_only_noncastable keep_bits store_f64_query 1 "out.zip" H).
Defined.

(** X13: a layer count larger than the checkpoint is deep is reported at the
    first tensor of the first missing layer: if the embedding table and
    layers [0 .. m-1] go through, [m < num_layers], and the checkpoint has no
    query weights for layer [m], the call prints the line naming
    [model.layers.m.self_attn.q_proj.qweight], returns [False], and the
    closed archive holds the files of the embedding table and of the layers
    below [m], without final norm and output head. *)
Theorem layer_count_too_large (convert : dtype → dtype → Z → Z)
    (params : gmap string Tensor) (num_layers : Z) (output_file : string)
    (downcast : bool) (m : Z) :
  0 ≤ m < num_layers →
  forallb (entry_ok convert params downcast)
          (embed_entry :: flat_map layer_entries (range m)) = true →
  params !! (prefix +:+ fmt_d m +:+ ".self_attn.q_proj.qweight") = None →
  reformat_quantized convert params num_layers output_file downcast =
    (RBool false,
     {| stdout := ["Parameters for " +:+ (prefix +:+ fmt_d m +:+ ".self_attn.q_proj.qweight")
                     +:+ " not found, bailing out"];
        outfile := mkZip output_file
                     (flat_map (entry_files convert params downcast)
                               (embed_entry :: flat_map layer_entries (range m))) true |}).
Proof.
  intros Hm Hbefore Hnone.
  destruct (range_split m num_layers Hm) as [rest Hrange].
  set (e := mkEntry (prefix +:+ fmt_d m +:+ ".self_attn.q_proj.qweight")
                    ("dec" +:+ fmt_d m +:+ "att.query.weights") false false).
  assert (El : ∃ l2, paramlist num_layers =
                     (embed_entry :: flat_map layer_entries (range m)) ++ e :: l2).
  { rewrite paramlist_eq, Hrange, flat_map_app.
    change (flat_map layer_entries (m :: rest))
      with (layer_entries m ++ flat_map layer_entries rest).
    eexists. simpl. rewrite <- !app_assoc. reflexivity. }
  destruct El as [l2 El].
  apply (reformat_abort _ _ _ _ _ _ l2 e); [done..|].
  intros w. by apply encode_entry_missing.
Qed.

Lemma layer_count_too_large_witness :
  (0 ≤ 1 < 2 ∧
   forallb (entry_ok keep_bits store_one_layer true)
           (embed_entry :: flat_map layer_entries (range 1)) = true ∧
   store_one_layer !! (prefix +:+ fmt_d 1 +:+ ".self_attn.q_proj.qweight") = None) ∧
  reformat_quantized keep_bits store_one_layer 2 "out.zip" true =
    (RBool false,
     {| stdout := ["Parameters for " +:+ (prefix +:+ fmt_d 1 +:+ ".self_attn.q_proj.qweight")
                     +:+ " not found, bailing out"];
        outfile := mkZip "out.zip"
                     (flat_map (entry_files keep_bits store_one_layer true)
                               (embed_entry :: flat_map layer_entries (range 1))) true |}).
Proof.
  assert (H1 : 0 ≤ 1 < 2) by lia.
  assert (H2 : forallb (entry_ok keep_bits store_one_layer true)
                 (embed_entry :: flat_map layer_entries (range 1)) = true)
    by (vm_compute; reflexivity).
  assert (H3 : store_one_layer !! (prefix +:+ fmt_d 1 +:+ ".self_attn.q_proj.qweight") = None)
    by reflexivity.
  split; [by repeat split|].
  exact (layer_count_too_large keep_bits store_one_layer 2 "out.zip" true 1 H1 H2 H3).
Defined.

(** X14: the length of a file tells the element count of its tensor: a file
    in [float16/] is two bytes for each element of the checkpoint tensor it
    comes from, a file in [float32/] or [int32/] four. *)
Theorem file_sizes (convert : dtype → dtype → Z → Z)
    (params : gmap string Tensor) (num_layers : Z) (output_file : string)
    (downcast : bool) (name : string) (data : list byte) :
  In (name, data)
     (z_filelist (outfile (snd (reformat_quantized convert params num_layers
                                  output_file downcast)))) →
  ∃ e t, In e (paramlist num_layers) ∧ params !! param e = Some t ∧
    ((name = "float16/" +:+ oparam e ∧ length data = (2 * numel t)%nat) ∨
     ((name = "float32/" +:+ oparam e ∨ name = "int32/" +:+ oparam e) ∧
      length data = (4 * numel t)%nat)).
Proof.
  intros Hin. apply reformat_files_sub, in_flat_map in Hin as (e & He & Hin).
  destruct (in_entry_files _ _ _ _ _ _ Hin) as (t & p & Ht & Hp & -> & ->).
  exists e, t. split; [done|]. split; [done|].
  rewrite length_tobytes, numel_resolved.
  destruct (t_dtype (resolved convert downcast e t)); simpl in Hp; simplify_eq; simpl; auto.
Qed.

Lemma file_sizes_witness :
  In ("float16/embedding.embed", tobytes (to keep_bits float16 ones_i32))
     (z_filelist (outfile (snd (reformat_quantized keep_bits
                                  (store_globals ones_i32 ones_f32 ones_f32) 0
                                  "out.zip" true)))) ∧
  ∃ e t, In e (paramlist 0) ∧
    store_globals ones_i32 ones_f32 ones_f32 !! param e = Some t ∧
    (("float16/embedding.embed" = "float16/" +:+ oparam e ∧
      length (tobytes (to keep_bits float16 ones_i32)) = (2 * numel t)%nat) ∨
     (("float16/embedding.embed" = "float32/" +:+ oparam e ∨
       "float16/embedding.embed" = "int32/" +:+ oparam e) ∧
      length (tobytes (to keep_bits float16 ones_i32)) = (4 * numel t)%nat)).
Proof.
  assert (H : In ("float16/embedding.embed", tobytes (to keep_bits float16 ones_i32))
     (z_filelist (outfile (snd (reformat_quantized keep_bits
                                  (store_globals ones_i32 ones_f32 ones_f32) 0
                                  "out.zip" true))))).
  { left. reflexivity. }
  split; [exact H|].
  exact (file_sizes keep_bits _ 0 "out.zip" true _ _ H).
Defined.

(** * The script *)

Section ScriptFacts.

Variable convert : dtype → dtype → Z → Z.
Variable py_int : string → option Z.
Variable torch_load : string → option (gmap string Tensor).

Abbreviation script := (main convert py_int torch_load).

(** What the script does once the arguments are in order. *)
Lemma main_converts (argv : list string) (a1 a2 a3 : string) (numlayers : Z)
    (modeldata : gmap string Tensor) :
  (4 ≤ length argv)%nat →
  argv !! 1%nat = Some a1 → argv !! 2%nat = Some a2 → argv !! 3%nat = Some a3 →
  py_int a2 = Some numlayers → torch_load a1 = Some modeldata →
  script argv =
    mkProcess (stdout (snd (reformat_quantized convert modeldata numlayers a3 true)))
              (Exit 0)
              (Some (outfile (snd (reformat_quantized convert modeldata numlayers a3 true)))).
Proof.
  intros Hlen H1 H2 H3 Hint Hload. unfold main.
  destruct (Nat.ltb_spec (length argv) 4) as [?|_]; [lia|].
  rewrite H2, Hint, H1, Hload, H3.
  by destruct (reformat_quantized convert modeldata numlayers a3 true).
Qed.

(** X16: the script drops what the conversion returns: when the conversion
    bails out with [False], the process still ends with status 0, after
    printing the one line of the conversion, and leaves a closed archive. *)
Theorem main_hides_failure (argv : list string) (a1 a2 a3 : string) (numlayers : Z)
    (modeldata : gmap string Tensor) :
  (4 ≤ length argv)%nat →
  argv !! 1%nat = Some a1 → argv !! 2%nat = Some a2 → argv !! 3%nat = Some a3 →
  py_int a2 = Some numlayers → torch_load a1 = Some modeldata →
  fst (reformat_quantized convert modeldata numlayers a3 true) = RBool false →
  p_ending (main convert py_int torch_load argv) = Exit 0 ∧
  (∃ line, p_stdout (main convert py_int torch_load argv) = [line]) ∧
  ∃ z, p_archive (main convert py_int torch_load argv) = Some z ∧ z_closed z = true ∧ z_filename z = a3.
Proof.
  intros Hlen H1 H2 H3 Hint Hload Hfalse.
  rewrite (main_converts argv a1 a2 a3 numlayers modeldata) by done. simpl.
  destruct (reformat_cases convert modeldata true numlayers a3)
    as [[_ Hrun]|(l1 & e & l2 & line & _ & _ & _ & Hrun)]; rewrite Hrun in *.
  - discriminate.
  - simpl. split; [done|]. split; [by exists line|]. eauto.
Qed.

(** X17: the script always converts with the downcast switched on: in the
    archive it leaves, the file of a castable tuple (embedding table, layer
    norms, final norm, output head) is in [float16/], two bytes for each
    element, whatever element type the checkpoint tensor has; the file of
    any other tuple holds the bytes of the checkpoint tensor. *)
Theorem main_always_downcasts (argv : list string) (a1 a2 a3 : string) (numlayers : Z)
    (modeldata : gmap string Tensor) (z : ZipFile) (name : string) (data : list byte) :
  (4 ≤ length argv)%nat →
  argv !! 1%nat = Some a1 → argv !! 2%nat = Some a2 → argv !! 3%nat = Some a3 →
  py_int a2 = Some numlayers → torch_load a1 = Some modeldata →
  p_archive (main convert py_int torch_load argv) = Some z → In (name, data) (z_filelist z) →
  ∃ e t, In e (paramlist numlayers) ∧ modeldata !! param e = Some t ∧
    if castable e
    then name = "float16/" +:+ oparam e ∧ length data = (2 * numel t)%nat
    else ∃ p, type_prefix (t_dtype t) = Some p ∧ name = p +:+ oparam e ∧ data = tobytes t.
Proof.
  intros Hlen H1 H2 H3 Hint Hload Hz Hin.
  rewrite (main_converts argv a1 a2 a3 numlayers modeldata) in Hz by done.
  simpl in Hz. injection Hz as <-.
  apply reformat_files_sub, in_flat_map in Hin as (e & He & Hin).
  destruct (in_entry_files _ _ _ _ _ _ Hin) as (t & p & Ht & Hp & -> & ->).
  exists e, t. split; [done|]. split; [done|].
  unfold resolved in *. destruct (castable e); simpl in *.
  - rewrite to_dtype in Hp. simpl in Hp. simplify_eq.
    split; [done|]. apply length_tobytes_to_float16.
  - by exists p.
Qed.

End ScriptFacts.

Lemma main_hides_failure_witness :
  ((4 ≤ length ["convert.py"; "model.pt"; "2"; "out.zip"])%nat ∧
   parse_decimal "2" = Some 2 ∧ load_sample "model.pt" = Some store_one_layer ∧
   fst (reformat_quantized keep_bits store_one_layer 2 "out.zip" true) = RBool false) ∧
  (p_ending (main keep_bits parse_decimal load_sample
               ["convert.py"; "model.pt"; "2"; "out.zip"]) = Exit 0 ∧
   (∃ line, p_stdout (main keep_bits parse_decimal load_sample
                        ["convert.py"; "model.pt"; "2"; "out.zip"]) = [line]) ∧
   ∃ z, p_archive (main keep_bits parse_decimal load_sample
                     ["convert.py"; "model.pt"; "2"; "out.zip"]) = Some z ∧
        z_closed z = true ∧ z_filename z = "out.zip").
Proof.
  assert (H0 : (4 ≤ length ["convert.py"; "model.pt"; "2"; "out.zip"])%nat) by (simpl; lia).
  assert (Hint : parse_decimal "2" = Some 2) by reflexivity.
  assert (Hload : load_sample "model.pt" = Some store_one_layer) by reflexivity.
  assert (Hfalse : fst (reformat_quantized keep_bits store_one_layer 2 "out.zip" true)
                   = RBool false) by (vm_compute; reflexivity).
  split; [by repeat split|].
  exact (main_hides_failure keep_bits parse_decimal load_sample
           ["convert.py"; "model.pt"; "2"; "out.zip"] "model.pt" "2" "out.zip" 2
           store_one_layer H0 eq_refl eq_refl eq_refl Hint Hload Hfalse).
Defined.

Lemma main_always_downcasts_witness :
  ∃ z, p_archive (main keep_bits parse_decimal load_sample
                    ["convert.py"; "model.pt"; "1"; "out.zip"]) = Some z ∧
       In ("float16/embedding.embed", tobytes (to keep_bits float16 ones_f32)) (z_filelist z) ∧
       ∃ e t, In e (paramlist 1) ∧ store_one_layer !! param e = Some t ∧
         if castable e
         then "float16/embedding.embed" = "float16/" +:+ oparam e ∧
              length (tobytes (to keep_bits float16 ones_f32)) = (2 * numel t)%nat
         else ∃ p, type_prefix (t_dtype t) = Some p ∧
                   "float16/embedding.embed" = p +:+ oparam e ∧
                   tobytes (to keep_bits float16 ones_f32) = tobytes t.
Proof.
  assert (H0 : (4 ≤ length ["convert.py"; "model.pt"; "1"; "out.zip"])%nat) by (simpl; lia).
  assert (Hint : parse_decimal "1" = Some 1) by reflexivity.
  assert (Hload : load_sample "model.pt" = Some store_one_layer) by reflexivity.
  eexists. split; [vm_compute; reflexivity|]. split; [left; reflexivity|].
  eapply (main_always_downcasts keep_bits parse_decimal load_sample
            ["convert.py"; "model.pt"; "1"; "out.zip"] "model.pt" "1" "out.zip" 1
            store_one_layer _ _ _ H0 eq_refl eq_refl eq_refl Hint Hload).
  - vm_compute. reflexivity.
  - left. reflexivity.
Defined.
